(** * EirTests Runner: a shallow embedding of the orchestration pipeline

    The development follows [src/runner.ts] (class [TestRunner]),
    [src/secrets/env.ts] (class [EnvSecretsProvider]), [src/api-client.ts]
    (class [EirTestsClient]) and [src/types.ts].

    Modelling conventions.
    - A JavaScript string is the [string] of the bytes of its UTF-8
      encoding.  The patterns the runner searches for are ASCII; the line
      terminators the regular-expression dot refuses are LF, CR and the
      encodings of U+2028 and U+2029.
    - Objects used as dictionaries ([process.env], [Record<string,string>])
      and the [Map] from file path to card id are [gmap string string].
    - The file system is a finite map from absolute path to node; the calls
      of the [fs] module the runner makes are functions on it.  A call fails
      where the layout of the disk makes it fail (a directory where a file is
      written, a file where a directory is needed); [rmSync] with [force]
      and [recursive] does not fail.
    - Effects (file system, private fields of the runner, console) are
      threaded through a state-and-exception monad [M]; a thrown error keeps
      the effects performed before it.
    - External collaborators (remote API, Playwright, JSON parser, clock) are
      the fields of a [World] record; every theorem quantifies over them. *)

From Stdlib Require Import ZArith String Ascii List Lia.
From stdpp Require Import gmap strings list fin_maps pretty.

Local Open Scope string_scope.

(** ** JavaScript string primitives used by the runner *)

Module Js.

Definition LF : ascii := "010"%char.
Definition CR : ascii := "013"%char.
Definition nl : string := String LF "".

(** [strip_prefix pre s] is [Some r] when [s = pre ++ r]. *)
Fixpoint strip_prefix (pre s : string) : option string :=
  match pre, s with
  | EmptyString, _ => Some s
  | String a pre', String b s' =>
      if Ascii.eqb a b then strip_prefix pre' s' else None
  | String _ _, EmptyString => None
  end.

(** [s.startsWith(pre)] *)
Definition startsWith (s pre : string) : bool :=
  match strip_prefix pre s with Some _ => true | None => false end.

(** [s.replace(/^lit/, '')] for a literal [lit]. *)
Definition replace_head (lit s : string) : string :=
  match strip_prefix lit s with Some r => r | None => s end.

(** [s.replace(/lit$/, '')] for a literal [lit]: the search tries every
    start position from the left; the anchor only lets the match end at
    the end of the input. *)
Fixpoint replace_tail (lit s : string) : string :=
  if String.eqb s lit then ""
  else match s with
       | EmptyString => ""
       | String c s' => String c (replace_tail lit s')
       end.

(** Truthiness of a string value. *)
Definition truthy (s : string) : bool := negb (String.eqb s "").

(** Character classes of the regular expressions. *)
Definition is_digit (c : ascii) : bool :=
  let n := nat_of_ascii c in (48 <=? n)%nat && (n <=? 57)%nat.

Fixpoint all_chars (p : ascii → bool) (s : string) : bool :=
  match s with
  | EmptyString => true
  | String c s' => p c && all_chars p s'
  end.

(** U+2028 (line separator) and U+2029 (paragraph separator) in UTF-8. *)
Definition LS : string := String "226" (String "128" (String "168" "")).
Definition PS : string := String "226" (String "128" (String "169" "")).

(** A line terminator of JavaScript starts the string: LF, CR, U+2028 or
    U+2029. *)
Definition at_line_terminator (s : string) : bool :=
  startsWith s nl || startsWith s (String CR "")
  || startsWith s LS || startsWith s PS.

(** The dot of a regular expression takes every character of [s]: no line
    terminator starts anywhere in [s]. *)
Fixpoint no_line_terminator (s : string) : bool :=
  match s with
  | EmptyString => true
  | String _ s' => negb (at_line_terminator s) && no_line_terminator s'
  end.

(** The greedy [\d*]: drop the longest run of digits. *)
Fixpoint skip_digits (s : string) : string :=
  match s with
  | String c s' => if is_digit c then skip_digits s' else s
  | EmptyString => s
  end.

End Js.

(** ** POSIX [path] module: [join] and [dirname] *)

Module Path.

Definition slash : ascii := "/"%char.

(** Split at every slash; ["a//b"] gives ["a"; ""; "b"]. *)
Fixpoint split_go (cur : string) (s : string) : list string :=
  match s with
  | EmptyString => [String.rev cur]
  | String c s' =>
      if Ascii.eqb c slash then String.rev cur :: split_go "" s'
      else split_go (String c cur) s'
  end.
Definition split (s : string) : list string := split_go "" s.

Definition unsplit (segs : list string) : string := String.concat "/" segs.

(** [normalizeString]: the segments kept so far are a stack, last on
    top.  Empty and ["."] segments are dropped; [".."] pops a segment that
    is not itself [".."], and is kept only when [allowAboveRoot]. *)
Fixpoint normalize_segs (allowAboveRoot : bool) (stack : list string)
    (segs : list string) : list string :=
  match segs with
  | [] => List.rev stack
  | seg :: segs' =>
      if String.eqb seg "" || String.eqb seg "." then
        normalize_segs allowAboveRoot stack segs'
      else if String.eqb seg ".." then
        match stack with
        | top :: stack' =>
            if String.eqb top ".." then
              normalize_segs allowAboveRoot
                (if allowAboveRoot then seg :: stack else stack) segs'
            else normalize_segs allowAboveRoot stack' segs'
        | [] =>
            normalize_segs allowAboveRoot
              (if allowAboveRoot then [seg] else []) segs'
        end
      else normalize_segs allowAboveRoot (seg :: stack) segs'
  end.

Definition is_absolute (p : string) : bool :=
  match p with String c _ => Ascii.eqb c slash | EmptyString => false end.

Definition ends_with_slash (p : string) : bool :=
  match String.rev p with String c _ => Ascii.eqb c slash | EmptyString => false end.

(** [path.posix.normalize] *)
Definition normalize (p : string) : string :=
  if String.eqb p "" then "."
  else
    let abs := is_absolute p in
    let trailing := ends_with_slash p in
    let body := unsplit (normalize_segs (negb abs) [] (split p)) in
    if String.eqb body "" then
      if abs then "/" else if trailing then "./" else "."
    else
      let body' := if trailing then body ++ "/" else body in
      if abs then "/" ++ body' else body'.

(** [path.posix.join(a, b)]: empty arguments are left out. *)
Definition join (a b : string) : string :=
  if String.eqb a "" then
    if String.eqb b "" then "." else normalize b
  else if String.eqb b "" then normalize a
  else normalize (a ++ "/" ++ b).

(** [path.posix.dirname]: scan from the end down to index 1, skip the
    trailing slashes and the last segment, cut at the slash before it. *)
Fixpoint drop_while (p : ascii → bool) (l : list ascii) : list ascii :=
  match l with
  | c :: l' => if p c then drop_while p l' else l
  | [] => []
  end.

Definition is_slash (c : ascii) : bool := Ascii.eqb c slash.

Definition dirname (p : string) : string :=
  match list_ascii_of_string p with
  | [] => "."
  | c0 :: rest =>
      let hasRoot := is_slash c0 in
      let scan := drop_while (λ c, negb (is_slash c))
                    (drop_while is_slash (List.rev rest)) in
      match scan with
      | [] => if hasRoot then "/" else "."
      | _ :: before =>
          if hasRoot && (length scan =? 1)%nat then "//"
          else string_of_list_ascii (c0 :: List.rev before)
      end
  end.

End Path.

(** ** File system *)

Module Fs.

Inductive node : Type :=
| Dir
| File (content : string).

(** Absolute, normalized path to node.  The root directory is implicit. *)
Abbreviation t := (gmap string node).

Definition stat (f : t) (p : string) : option node :=
  if String.eqb p "/" then Some Dir else f !! p.

(** [fs.existsSync] *)
Definition existsSync (f : t) (p : string) : bool :=
  match stat f p with Some _ => true | None => false end.

(** The chain of directories from the root down to [p]:
    ["/a/b"] gives ["/a"; "/a/b"]. *)
Fixpoint chain (base : string) (segs : list string) : list string :=
  match segs with
  | [] => []
  | seg :: segs' =>
      let here := base ++ "/" ++ seg in
      here :: chain here segs'
  end.

Definition ancestors (p : string) : list string :=
  chain "" (List.filter Js.truthy (Path.split p)).

(** [fs.mkdirSync(p, {recursive: true})]: creates the missing directories
    of the chain; [None] when a component is a regular file.  Failures that
    do not come from the layout of the disk (permissions, a full or
    read-only disk) are outside the model: [Some] says that the layout
    allows the call. *)
Fixpoint mkdir_chain (ps : list string) (f : t) : option t :=
  match ps with
  | [] => Some f
  | p :: ps' =>
      match f !! p with
      | None => mkdir_chain ps' (<[p := Dir]> f)
      | Some Dir => mkdir_chain ps' f
      | Some (File _) => None
      end
  end.

Definition mkdirSync (p : string) (f : t) : option t :=
  mkdir_chain (ancestors p) f.

(** [fs.writeFileSync(p, content)]: creates or truncates the regular file
    [p]; [None] when [p] names a directory (also by a trailing slash) or
    its parent is not a directory.  As for [mkdirSync], [Some] says that the
    layout of the disk allows the call. *)
Definition writeFileSync (p content : string) (f : t) : option t :=
  if Path.ends_with_slash p then None
  else match stat f p with
       | Some Dir => None
       | _ =>
           match stat f (Path.dirname p) with
           | Some Dir => Some (<[p := File content]> f)
           | _ => None
           end
       end.

(** [fs.readFileSync(p, 'utf-8')] *)
Definition readFileSync (p : string) (f : t) : option string :=
  match stat f p with
  | Some (File c) => Some c
  | _ => None
  end.

(** [q] is [p] or lies below it. *)
Definition within (p q : string) : bool :=
  String.eqb q p || Js.startsWith q (p ++ "/").

(** [fs.rmSync(p, {recursive: true, force: true})] *)
Definition rmSync (p : string) (f : t) : t :=
  filter (λ kv, within p kv.1 = false) f.

Definition initial : t := {[ "/tmp" := Dir ]}.

End Fs.

(** ** Data model ([src/types.ts]) *)

Module EirTestsConfig.
Record t := mk { apiUrl : string; apiKey : string; siteId : string }.
End EirTestsConfig.

(** Of an exported test the runner reads [id], [title], [playwright_code]
    and [file_path]; [playwright_code] is [string | null]. *)
Module ExportedTest.
Record t := mk {
  id : string;
  title : string;
  playwright_code : option string;
  file_path : string;
}.
End ExportedTest.

Module ExportedTests.
Record t := mk {
  site_id : string;
  site_name : string;
  organization_id : string;
  total_tests : nat;
  tests : list ExportedTest.t;
}.
End ExportedTests.

(** The Playwright JSON report.  The runner guards against a missing
    [specs], [tests] and [results] member, so these are optional here. *)
Module PlaywrightJsonResult.
Inductive status_t := passed | failed | timedOut | skipped.
Global Instance status_eq_dec : EqDecision status_t.
Proof. solve_decision. Defined.
Record t := mk {
  status : status_t;
  duration : Z;
  error : option string;   (* [error?.message] *)
}.
End PlaywrightJsonResult.

Module PlaywrightJsonTest.
Record t := mk {
  title : string;
  results : option (list PlaywrightJsonResult.t);
}.
End PlaywrightJsonTest.

Module PlaywrightJsonSpec.
Record t := mk {
  title : string;
  tests : option (list PlaywrightJsonTest.t);
}.
End PlaywrightJsonSpec.

Module PlaywrightJsonSuite.
Record t := mk {
  title : string;
  file : string;
  specs : option (list PlaywrightJsonSpec.t);
}.
End PlaywrightJsonSuite.

Module PlaywrightJsonReport.
Record t := mk { suites : option (list PlaywrightJsonSuite.t) }.
End PlaywrightJsonReport.

Module TestResultSubmission.
Inductive status_t := passed_ | failed_.
Record t := mk {
  test_card_id : string;
  passed : bool;
  duration_ms : Z;
  error_message : option string;
  status : status_t;
}.
End TestResultSubmission.

Module RunnerResultsSubmission.
Record t := mk {
  organization_id : string;
  site_id : string;
  started_at : string;
  finished_at : string;
  status : TestResultSubmission.status_t;
  results : list TestResultSubmission.t;
}.
End RunnerResultsSubmission.

(** ** Console output

    One constructor per message the runner and the client print, with the
    values interpolated into it. *)

Module Console.
Inductive line : Type :=
| Banner                                   (* EirTests Runner *)
| Fetching                                 (* Fetching tests from EirTests... *)
| FetchingFrom (url : string)              (* Fetching tests from <url> *)
| Fetched (total : nat) (site : string) (withCode withoutCode : nat)
| Writing (dir : string)                   (* Writing tests to <dir>/ *)
| Skipping (title : string)                (* Skipping: <title> (no code) *)
| WroteFile (file_path : string)           (* <file_path> *)
| Wrote (n : nat)                          (* Wrote <n> test files *)
| NoTestsWithCode                          (* No tests with code found. Skipping execution. *)
| LoadingSecrets
| LoadedSecrets (n : nat)                  (* Loaded <n> secrets *)
| Executing
| CleaningUp                               (* Cleaning up... *)
| Reporting                                (* Reporting results to EirTests... *)
| NoResultsFile                            (* No test results file found, skipping reporting *)
| NoCardId (file testFilePath : string)    (* Could not find test_card_id for: <file> -> <path> *)
| NoResults                                (* No test results to report *)
| Collected (n nPassed nFailed : nat)
| Reported (test_run_id : string) (results_created : nat)
| ReportFailed (message : string)          (* Failed to report results: <message> *)
| AllPassed
| SomeFailed (exitCode : Z)
| Error (message : string).                (* Error: <message> *)
End Console.

(** ** The world outside the runner *)

Inductive FetchOutcome : Type :=
| FetchNetworkError (message : string)
| FetchRejected (status : N) (statusText body : string)
| FetchBadBody (message : string)          (* [response.json()] throws *)
| FetchOk (data : ExportedTests.t).

Inductive PostOutcome : Type :=
| PostNetworkError (message : string)
| PostRejected (status : N) (body : string)
| PostBadBody (message : string)
| PostOk (test_run_id : string) (results_created : nat).

(** [execSync] either returns or throws an error whose [status] is the exit
    code of the child, absent when the child was killed or never started. *)
Inductive ExecOutcome : Type :=
| ExecReturned
| ExecThrew (status : option Z).

Record World := {
  process_env : gmap string string;
  process_cwd : string;
  script_dirname : string;                     (* [__dirname] *)
  clock_start : string;                        (* [new Date().toISOString()] *)
  clock_finish : string;
  http_get : string → string → FetchOutcome;   (* url, bearer token *)
  http_post : string → string → RunnerResultsSubmission.t → PostOutcome;
  (** command line, environment, working directory, file system before *)
  execSync : string → gmap string string → string → Fs.t → Fs.t * ExecOutcome;
  (** [JSON.parse]; [None] is a thrown [SyntaxError] *)
  JSON_parse : string → option PlaywrightJsonReport.t;
}.

(** ** State and the monad of the runner *)

Record state := {
  fs : Fs.t;
  testFileToCardIdMap : gmap string string;
  exportedTests : option ExportedTests.t;
  console : list Console.line;   (* latest line first *)
}.

Inductive result (A : Type) : Type :=
| Ok (a : A)
| Throw (message : string).
Arguments Ok {A} a.
Arguments Throw {A} message.

Definition M (A : Type) : Type := state → result A * state.

Definition ret {A} (a : A) : M A := λ st, (Ok a, st).

Definition bind {A B} (m : M A) (k : A → M B) : M B :=
  λ st, match m st with
        | (Ok a, st') => k a st'
        | (Throw e, st') => (Throw e, st')
        end.

Definition throw {A} (message : string) : M A := λ st, (Throw message, st).

(** [try { body } catch (error) { handler }] *)
Definition try_catch {A} (body : M A) (handler : string → M A) : M A :=
  λ st, match body st with
        | (Ok a, st') => (Ok a, st')
        | (Throw e, st') => handler e st'
        end.

Global Instance M_ret : MRet M := @ret.
Global Instance M_bind : MBind M := λ A B k m, bind m k.

Definition get_state : M state := λ st, (Ok st, st).

Definition set_fs (f : Fs.t) : M unit :=
  λ st, (Ok tt, {| fs := f; testFileToCardIdMap := testFileToCardIdMap st;
                   exportedTests := exportedTests st; console := console st |}).

Definition set_cardId (k v : string) : M unit :=
  λ st, (Ok tt, {| fs := fs st;
                   testFileToCardIdMap := <[k := v]> (testFileToCardIdMap st);
                   exportedTests := exportedTests st; console := console st |}).

Definition set_exportedTests (e : ExportedTests.t) : M unit :=
  λ st, (Ok tt, {| fs := fs st; testFileToCardIdMap := testFileToCardIdMap st;
                   exportedTests := Some e; console := console st |}).

(** [console.log], [console.error] *)
Definition log (l : Console.line) : M unit :=
  λ st, (Ok tt, {| fs := fs st; testFileToCardIdMap := testFileToCardIdMap st;
                   exportedTests := exportedTests st; console := l :: console st |}).

(** A call of the [fs] module that changes the file system or throws. *)
Definition fs_call (op : Fs.t → option Fs.t) (message : string) : M unit :=
  λ st, match op (fs st) with
        | Some f => set_fs f st
        | None => (Throw message, st)
        end.

(** ** [EnvSecretsProvider] ([src/secrets/env.ts]) *)

Module EnvSecretsProvider.

(** [getAllSecrets()]: every variable whose name starts with [TEST_] and
    whose value is non-empty. *)
Definition getAllSecrets (env : gmap string string) : gmap string string :=
  filter (λ kv, Js.startsWith kv.1 "TEST_" && Js.truthy kv.2 = true) env.

(** [getSecretsForPlaywright()]: the above, and [BASE_URL] when set. *)
Definition getSecretsForPlaywright (env : gmap string string) : gmap string string :=
  let secrets := getAllSecrets env in
  match env !! "BASE_URL" with
  | Some v => if Js.truthy v then <["BASE_URL" := v]> secrets else secrets
  | None => secrets
  end.

End EnvSecretsProvider.

(** ** [EirTestsClient] ([src/api-client.ts]) *)

Module EirTestsClient.

(** [apiUrl.replace(/\/+$/, '')] *)
Definition strip_trailing_slashes (url : string) : string :=
  string_of_list_ascii
    (List.rev (Path.drop_while Path.is_slash (List.rev (list_ascii_of_string url)))).

Definition has_code (t : ExportedTest.t) : bool :=
  match ExportedTest.playwright_code t with
  | Some code => Js.truthy code
  | None => false
  end.

(** [getTests(siteId)]: every failure, the rejected response included,
    leaves as a connection error. *)
Definition getTests (w : World) (cfg : EirTestsConfig.t) (siteId : string)
    : M ExportedTests.t :=
  let url := strip_trailing_slashes (EirTestsConfig.apiUrl cfg)
             ++ "/api/testing/export-site-tests?site_id=" ++ siteId in
  log (Console.FetchingFrom url);;
  match http_get w url (EirTestsConfig.apiKey cfg) with
  | FetchNetworkError e => throw ("Failed to connect to EirTests API: " ++ e)
  | FetchRejected status statusText body =>
      throw ("Failed to connect to EirTests API: Failed to fetch tests: "
             ++ pretty status ++ " " ++ statusText ++ Js.nl ++ body)
  | FetchBadBody e => throw ("Failed to connect to EirTests API: " ++ e)
  | FetchOk data =>
      log (Console.Fetched (ExportedTests.total_tests data)
             (ExportedTests.site_name data)
             (length (List.filter has_code (ExportedTests.tests data)))
             (length (List.filter (λ t, negb (has_code t)) (ExportedTests.tests data))));;
      mret data
  end.

End EirTestsClient.

(** ** [TestRunner] ([src/runner.ts]) *)

Module TestRunner.

(** The fields set once by the constructor. *)
Record t := mk {
  config : EirTestsConfig.t;
  tempDir : string;
}.

(** [new TestRunner(config)] at time [now] ([Date.now()]). *)
Definition new (cfg : EirTestsConfig.t) (now : N) : t :=
  {| config := cfg; tempDir := "/tmp/eirtests-" ++ pretty now |}.

Definition initial (f : Fs.t) : state :=
  {| fs := f; testFileToCardIdMap := ∅; exportedTests := None; console := [] |}.

(** The clean-up of markdown fences in [writeTestFiles]. *)
Definition clean_code (code : string) : string :=
  if Js.startsWith code "```" then
    Js.replace_tail (Js.nl ++ "```")
      (Js.replace_head ("```" ++ Js.nl)
         (Js.replace_head ("```typescript" ++ Js.nl) code))
  else code.

(** One match attempt of [/eirtests-\d+\/(.+)$/] at the start of [s]; the
    result is capture group 1.  The digits are taken greedily and giving
    one back cannot help, since a slash must follow them; the group runs
    to the end of the input and the dot takes no line terminator. *)
Definition match_tempDir_here (s : string) : option string :=
  match Js.strip_prefix "eirtests-" s with
  | Some (String d r) =>
      if Js.is_digit d then
        match Js.skip_digits r with
        | String c rest =>
            if Ascii.eqb c "/"
               && Js.truthy rest
               && Js.no_line_terminator rest
            then Some rest else None
        | EmptyString => None
        end
      else None
  | _ => None
  end.

(** [testFilePath.match(/eirtests-\d+\/(.+)$/)]: the leftmost start
    position at which the expression matches. *)
Fixpoint match_tempDir (s : string) : option string :=
  match match_tempDir_here s with
  | Some rel => Some rel
  | None =>
      match s with
      | String _ s' => match_tempDir s'
      | EmptyString => None
      end
  end.

(** [{...process.env, ...secrets, NODE_PATH: ...}]: a later member wins. *)
Definition child_env (env secrets : gmap string string) (node_path : string)
    : gmap string string :=
  <["NODE_PATH" := node_path]> (secrets ∪ env).

(** [error.status || 1] *)
Definition exit_status (o : ExecOutcome) : Z :=
  match o with
  | ExecReturned => 0
  | ExecThrew (Some status) => if (status =? 0)%Z then 1 else status
  | ExecThrew None => 1
  end.

(** The record pushed for one spec of a matched suite. *)
Definition spec_results (testCardId : string) (spec : PlaywrightJsonSpec.t)
    : list TestResultSubmission.t :=
  match PlaywrightJsonSpec.tests spec with
  | Some (test :: _) =>
      match PlaywrightJsonTest.results test with
      | Some (r :: rs) =>
          let latestResult := List.last rs r in
          let passed :=
            bool_decide (PlaywrightJsonResult.status latestResult
                         = PlaywrightJsonResult.passed) in
          [ {| TestResultSubmission.test_card_id := testCardId;
               TestResultSubmission.passed := passed;
               TestResultSubmission.duration_ms :=
                 PlaywrightJsonResult.duration latestResult;
               TestResultSubmission.error_message :=
                 PlaywrightJsonResult.error latestResult;
               TestResultSubmission.status :=
                 if passed then TestResultSubmission.passed_
                 else TestResultSubmission.failed_ |} ]
      | _ => []
      end
  | _ => []
  end.

Section Methods.
Context (w : World) (self : t).

Definition validateConfig : M unit :=
  if negb (Js.truthy (EirTestsConfig.apiKey (config self))) then
    throw "EIRTESTS_API_KEY is required"
  else if negb (Js.truthy (EirTestsConfig.siteId (config self))) then
    throw "EIRTESTS_SITE_ID is required"
  else mret tt.

Definition createTempDirectory : M unit :=
  st ← get_state;
  if negb (Fs.existsSync (fs st) (tempDir self)) then
    fs_call (Fs.mkdirSync (tempDir self)) "mkdir failed"
  else mret tt.

(** The body of the loop of [writeTestFiles] for a test with code. *)
Definition write_test (test : ExportedTest.t) (code : string) : M unit :=
  let fullPath := Path.join (tempDir self) (ExportedTest.file_path test) in
  let dir := Path.dirname fullPath in
  st ← get_state;
  (if negb (Fs.existsSync (fs st) dir) then
     fs_call (Fs.mkdirSync dir) "mkdir failed"
   else mret tt);;
  fs_call (Fs.writeFileSync fullPath (clean_code code)) "write failed";;
  log (Console.WroteFile (ExportedTest.file_path test));;
  set_cardId fullPath (ExportedTest.id test).

Fixpoint writeTestFiles_from (written : nat) (tests : list ExportedTest.t)
    : M nat :=
  match tests with
  | [] => mret written
  | test :: rest =>
      match ExportedTest.playwright_code test with
      | Some code =>
          if Js.truthy code then
            write_test test code;;
            writeTestFiles_from (S written) rest
          else
            log (Console.Skipping (ExportedTest.title test));;
            writeTestFiles_from written rest
      | None =>
          log (Console.Skipping (ExportedTest.title test));;
          writeTestFiles_from written rest
      end
  end.

Definition writeTestFiles (tests : list ExportedTest.t) : M nat :=
  writeTestFiles_from 0 tests.

(** [executeTests(secrets)] never throws: the error of [execSync] is
    turned into the exit code. *)
Definition executeTests (secrets : gmap string string) : M Z :=
  let env := child_env (process_env w) secrets
               (Path.join (script_dirname w) "../node_modules") in
  st ← get_state;
  let '(f, outcome) :=
    execSync w ("npx playwright test " ++ tempDir self) env (process_cwd w) (fs st) in
  set_fs f;;
  mret (exit_status outcome).

Definition cleanup : M unit :=
  st ← get_state;
  if Fs.existsSync (fs st) (tempDir self) then
    log Console.CleaningUp;;
    set_fs (Fs.rmSync (tempDir self) (fs st))
  else mret tt.

(** The path the suite is looked up under. *)
Definition suite_path (file : string) : string :=
  match match_tempDir file with
  | Some relativePath => Path.join (tempDir self) relativePath
  | None => file
  end.

(** [testFileToCardIdMap.get(testFilePath)] followed by the test
    [if (!testCardId)]. *)
Definition suite_cardId (cards : gmap string string) (file : string)
    : option string :=
  match cards !! suite_path file with
  | Some testCardId => if Js.truthy testCardId then Some testCardId else None
  | None => None
  end.

(** The loop over the suites of the report. *)
Fixpoint collect_results (results : list TestResultSubmission.t)
    (suites : list PlaywrightJsonSuite.t) : M (list TestResultSubmission.t) :=
  match suites with
  | [] => mret results
  | suite :: rest =>
      st ← get_state;
      match suite_cardId (testFileToCardIdMap st) (PlaywrightJsonSuite.file suite) with
      | None =>
          log (Console.NoCardId (PlaywrightJsonSuite.file suite)
                 (suite_path (PlaywrightJsonSuite.file suite)));;
          collect_results results rest
      | Some testCardId =>
          collect_results
            (results ++ List.flat_map (spec_results testCardId)
                          (default [] (PlaywrightJsonSuite.specs suite)))
            rest
      end
  end.

Definition submit (exported : ExportedTests.t) (startTime finishTime : string)
    (exitCode : Z) (results : list TestResultSubmission.t) : M unit :=
  let submission :=
    {| RunnerResultsSubmission.organization_id := ExportedTests.organization_id exported;
       RunnerResultsSubmission.site_id := ExportedTests.site_id exported;
       RunnerResultsSubmission.started_at := startTime;
       RunnerResultsSubmission.finished_at := finishTime;
       RunnerResultsSubmission.status :=
         if (exitCode =? 0)%Z then TestResultSubmission.passed_
         else TestResultSubmission.failed_;
       RunnerResultsSubmission.results := results |} in
  match http_post w
          (EirTestsConfig.apiUrl (config self) ++ "/api/testing/submit-runner-results")
          (EirTestsConfig.apiKey (config self)) submission with
  | PostNetworkError e => throw e
  | PostRejected status body =>
      throw ("Failed to submit results: " ++ pretty status ++ " " ++ body)
  | PostBadBody e => throw e
  | PostOk test_run_id results_created =>
      log (Console.Reported test_run_id results_created)
  end.

Definition reportResults (startTime finishTime : string) (exitCode : Z) : M unit :=
  st ← get_state;
  match exportedTests st with
  | None => mret tt
  | Some exported =>
      try_catch
        (log Console.Reporting;;
         let jsonResultsPath := Path.join (process_cwd w) "test-results.json" in
         st ← get_state;
         if negb (Fs.existsSync (fs st) jsonResultsPath) then
           log Console.NoResultsFile
         else
           match Fs.readFileSync jsonResultsPath (fs st) with
           | None => throw "read failed"
           | Some jsonContent =>
               match JSON_parse w jsonContent with
               | None => throw "Unexpected token in JSON"
               | Some playwrightResults =>
                   match PlaywrightJsonReport.suites playwrightResults with
                   | None => throw "playwrightResults.suites is not iterable"
                   | Some suites =>
                       results ← collect_results [] suites;
                       if (length results =? 0)%nat then
                         log Console.NoResults
                       else
                         log (Console.Collected (length results)
                                (length (List.filter TestResultSubmission.passed results))
                                (length (List.filter
                                   (λ r, negb (TestResultSubmission.passed r)) results)));;
                         submit exported startTime finishTime exitCode results
                   end
               end
           end)
        (λ e, log (Console.ReportFailed e))
  end.

Definition run : M Z :=
  let startTime := clock_start w in
  try_catch
    (log Console.Banner;;
     validateConfig;;
     log Console.Fetching;;
     exported ← EirTestsClient.getTests w (config self)
                  (EirTestsConfig.siteId (config self));
     set_exportedTests exported;;
     log (Console.Writing (tempDir self));;
     createTempDirectory;;
     testsWritten ← writeTestFiles (ExportedTests.tests exported);
     log (Console.Wrote testsWritten);;
     if (testsWritten =? 0)%nat then
       log Console.NoTestsWithCode;;
       cleanup;;
       mret 0%Z
     else
       log Console.LoadingSecrets;;
       let secrets := EnvSecretsProvider.getSecretsForPlaywright (process_env w) in
       log (Console.LoadedSecrets (size secrets));;
       log Console.Executing;;
       exitCode ← executeTests secrets;
       let finishTime := clock_finish w in
       reportResults startTime finishTime exitCode;;
       cleanup;;
       log (if (exitCode =? 0)%Z then Console.AllPassed
            else Console.SomeFailed exitCode);;
       mret exitCode)
    (λ e, log (Console.Error e);; cleanup;; mret 1%Z).

End Methods.

End TestRunner.

(** ** Shapes of input the statements speak about *)

(** [Fenced tag body]: [body] between an opening fence with language tag
    [tag] and a closing fence, each on a line of its own. *)
Definition Fenced (tag body : string) : string :=
  "```" ++ tag ++ Js.nl ++ body ++ Js.nl ++ "```".

(** The full path [writeTestFiles] writes a test to. *)
Definition target (self : TestRunner.t) (test : ExportedTest.t) : string :=
  Path.join (TestRunner.tempDir self) (ExportedTest.file_path test).

(** No test of [later] that has code is written to the path of [test]. *)
Definition last_at_target (self : TestRunner.t) (test : ExportedTest.t)
    (later : list ExportedTest.t) : Prop :=
  ∀ test', test' ∈ later → EirTestsClient.has_code test' = true →
    target self test' ≠ target self test.

(** A file can be written to [p] again: [p] holds a regular file and its
    parent is a directory. *)
Definition rewritable (f : Fs.t) (p : string) : Prop :=
  Path.ends_with_slash p = false
  ∧ (∃ content, Fs.stat f p = Some (Fs.File content))
  ∧ Fs.stat f (Path.dirname p) = Some Fs.Dir.

(** A match of [/eirtests-\d+\/(.+)$/] starts at one of the positions of
    [prefix] in [prefix ++ rest]. *)
Fixpoint match_starts_inside (prefix rest : string) : bool :=
  match prefix with
  | EmptyString => false
  | String c prefix' =>
      match TestRunner.match_tempDir_here (prefix ++ rest) with
      | Some _ => true
      | None => match_starts_inside prefix' rest
      end
  end.

(** The file name a suite is reported under: a prefix, the directory name
    [eirtests-<digits>], a slash and the relative path. *)
Definition reported_file (prefix digits relativePath : string) : string :=
  prefix ++ "eirtests-" ++ digits ++ "/" ++ relativePath.

(** The spec with every test entry but the first removed. *)
Definition first_test_only (spec : PlaywrightJsonSpec.t) : PlaywrightJsonSpec.t :=
  {| PlaywrightJsonSpec.title := PlaywrightJsonSpec.title spec;
     PlaywrightJsonSpec.tests := take 1 <$> PlaywrightJsonSpec.tests spec |}.

Definition first_tests_only (suite : PlaywrightJsonSuite.t) : PlaywrightJsonSuite.t :=
  {| PlaywrightJsonSuite.title := PlaywrightJsonSuite.title suite;
     PlaywrightJsonSuite.file := PlaywrightJsonSuite.file suite;
     PlaywrightJsonSuite.specs :=
       List.map first_test_only <$> PlaywrightJsonSuite.specs suite |}.

(** The statements of the [try] block of [run] that come before the
    loading of the secrets, as one computation: it yields [testsWritten]. *)
Definition before_execute (w : World) (self : TestRunner.t) : M nat :=
  log Console.Banner;;
  TestRunner.validateConfig self;;
  log Console.Fetching;;
  exported ← EirTestsClient.getTests w (TestRunner.config self)
               (EirTestsConfig.siteId (TestRunner.config self));
  set_exportedTests exported;;
  log (Console.Writing (TestRunner.tempDir self));;
  TestRunner.createTempDirectory self;;
  testsWritten ← TestRunner.writeTestFiles self (ExportedTests.tests exported);
  log (Console.Wrote testsWritten);;
  mret testsWritten.

(** The exit code of the engine when it is started in state [st]. *)
Definition engine_exit_code (w : World) (self : TestRunner.t) (st : state) : Z :=
  TestRunner.exit_status
    (execSync w ("npx playwright test " ++ TestRunner.tempDir self)
       (TestRunner.child_env (process_env w)
          (EnvSecretsProvider.getSecretsForPlaywright (process_env w))
          (Path.join (script_dirname w) "../node_modules"))
       (process_cwd w) (fs st)).2.

(** ** A concrete run, for the examples *)

Module Scenario.

Definition config : EirTestsConfig.t :=
  EirTestsConfig.mk "https://api.eirtests.example" "ert_key" "site-1".

Definition runner : TestRunner.t := TestRunner.new config 1761535321504.

(** The disk once [createTempDirectory] has run. *)
Definition disk : state :=
  TestRunner.initial (<["/tmp/eirtests-1761535321504" := Fs.Dir]> Fs.initial).

Definition login : ExportedTest.t :=
  ExportedTest.mk "card-login" "Login"
    (Some (Fenced "typescript" "test('login', async () => {})"))
    "tests/smoke/login.spec.ts".

Definition logout : ExportedTest.t :=
  ExportedTest.mk "card-logout" "Logout"
    (Some "test('logout', async () => {})") "tests/smoke/logout.spec.ts".

(** Same target as [login]. *)
Definition login_again : ExportedTest.t :=
  ExportedTest.mk "card-login-2" "Login, second version"
    (Some "test('login v2', async () => {})") "tests/smoke/login.spec.ts".

(** Its target is the directory the file of [login] lies in. *)
Definition misplaced : ExportedTest.t :=
  ExportedTest.mk "card-bad" "Misplaced" (Some "test('x', async () => {})")
    "tests/smoke".

(** Fenced with the language tag [ts]. *)
Definition tagged_ts : ExportedTest.t :=
  ExportedTest.mk "card-ts" "Tagged" (Some (Fenced "ts" "test('t', async () => {})"))
    "tests/tagged.spec.ts".

Definition draft : ExportedTest.t :=
  ExportedTest.mk "card-draft" "Draft" None "tests/draft.spec.ts".

(** A world in which the engine exits with code 3 and leaves a report,
    and the submission of the results fails on the network. *)
Definition report : PlaywrightJsonReport.t :=
  PlaywrightJsonReport.mk
    (Some [PlaywrightJsonSuite.mk "login"
             "eirtests-1761535321504/tests/smoke/login.spec.ts"
             (Some [PlaywrightJsonSpec.mk "login"
                      (Some [PlaywrightJsonTest.mk "login"
                               (Some [PlaywrightJsonResult.mk
                                        PlaywrightJsonResult.failed 900
                                        (Some "timeout")])])])]).

Definition world : World :=
  {| process_env := {[ "TEST_LOGIN_USERNAME" := "admin"; "HOME" := "/root" ]};
     process_cwd := "/opt/runner";
     script_dirname := "/opt/runner/dist";
     clock_start := "2025-10-27T03:22:01.504Z";
     clock_finish := "2025-10-27T03:22:09.118Z";
     http_get := λ _ _,
       FetchOk (ExportedTests.mk "site-1" "Shop" "org-1" 3 [login; draft; logout]);
     http_post := λ _ _ _, PostNetworkError "ECONNRESET";
     execSync := λ _ _ _ f,
       (<["/opt/runner/test-results.json" := Fs.File "{...}"]> f,
        ExecThrew (Some 3%Z));
     JSON_parse := λ _, Some report |}.

Definition boot : state :=
  TestRunner.initial (<["/opt/runner" := Fs.Dir]> Fs.initial).

End Scenario.

(** ** Further shapes the statements speak about *)

(** The two states hold the same disk, the same map and the same fetched
    tests; they may differ in the console. *)
Definition same_store (st st' : state) : Prop :=
  fs st' = fs st
  ∧ testFileToCardIdMap st' = testFileToCardIdMap st
  ∧ exportedTests st' = exportedTests st.

(** The disk [cleanup] leaves. *)
Definition cleaned (self : TestRunner.t) (f : Fs.t) : Fs.t :=
  if Fs.existsSync f (TestRunner.tempDir self)
  then Fs.rmSync (TestRunner.tempDir self) f else f.

(** The lines printed for the suites that have no card id, first suite
    first. *)
Definition unmatched_lines (self : TestRunner.t) (cards : gmap string string)
    (suites : list PlaywrightJsonSuite.t) : list Console.line :=
  List.map
    (λ suite, Console.NoCardId (PlaywrightJsonSuite.file suite)
                (TestRunner.suite_path self (PlaywrightJsonSuite.file suite)))
    (List.filter
       (λ suite, match TestRunner.suite_cardId self cards
                         (PlaywrightJsonSuite.file suite) with
                 | Some _ => false
                 | None => true
                 end)
       suites).

(** The lines printed for definitions that are skipped. *)
Definition skipping_lines (tests : list ExportedTest.t) : list Console.line :=
  List.map (λ test, Console.Skipping (ExportedTest.title test)) tests.

(** The [try] block of [reportResults], for the fetched tests [exported]. *)
Definition report_attempt (w : World) (self : TestRunner.t)
    (exported : ExportedTests.t) (startTime finishTime : string) (exitCode : Z)
    : M unit :=
  log Console.Reporting;;
  let jsonResultsPath := Path.join (process_cwd w) "test-results.json" in
  st ← get_state;
  if negb (Fs.existsSync (fs st) jsonResultsPath) then
    log Console.NoResultsFile
  else
    match Fs.readFileSync jsonResultsPath (fs st) with
    | None => throw "read failed"
    | Some jsonContent =>
        match JSON_parse w jsonContent with
        | None => throw "Unexpected token in JSON"
        | Some playwrightResults =>
            match PlaywrightJsonReport.suites playwrightResults with
            | None => throw "playwrightResults.suites is not iterable"
            | Some suites =>
                results ← TestRunner.collect_results self [] suites;
                if (length results =? 0)%nat then
                  log Console.NoResults
                else
                  log (Console.Collected (length results)
                         (length (List.filter TestResultSubmission.passed results))
                         (length (List.filter
                            (λ r, negb (TestResultSubmission.passed r)) results)));;
                  TestRunner.submit w self exported startTime finishTime
                    exitCode results
            end
        end
    end.

(** The state in which the engine has run, when the stages before the
    execution ended in [st1]. *)
Definition after_execute (w : World) (self : TestRunner.t) (st1 : state) : state :=
  (TestRunner.executeTests w self
     (EnvSecretsProvider.getSecretsForPlaywright (process_env w))
     (log Console.Executing
        (log (Console.LoadedSecrets
                (size (EnvSecretsProvider.getSecretsForPlaywright (process_env w))))
           (log Console.LoadingSecrets st1).2).2).2).2.

(** The address [getTests] sends its request to. *)
Definition export_url (cfg : EirTestsConfig.t) : string :=
  EirTestsClient.strip_trailing_slashes (EirTestsConfig.apiUrl cfg)
  ++ "/api/testing/export-site-tests?site_id=" ++ EirTestsConfig.siteId cfg.

(** * Properties *)

(** ** Strings *)

Section StringFacts.

Lemma strip_prefix_app pre r : Js.strip_prefix pre (pre ++ r) = Some r.
Proof.
  induction pre as [|a pre IH]; simpl; [done|].
  by rewrite Ascii.eqb_refl.
Qed.

Lemma length_app_string (a b : string) :
  String.length (a ++ b) = String.length a + String.length b.
Proof. induction a as [|x a IH]; simpl; [done|]. by rewrite IH. Qed.

Lemma replace_tail_eq lit s :
  Js.replace_tail lit s =
    if String.eqb s lit then ""
    else match s with
         | EmptyString => ""
         | String c s' => String c (Js.replace_tail lit s')
         end.
Proof. by destruct s. Qed.

Lemma replace_tail_app lit body : Js.replace_tail lit (body ++ lit) = body.
Proof.
  induction body as [|c body IH]; rewrite replace_tail_eq.
  - simpl. by rewrite String.eqb_refl.
  - destruct (String.eqb_spec (String c body ++ lit) lit) as [E|_].
    + apply (f_equal String.length) in E. simpl in E.
      rewrite length_app_string in E. lia.
    + simpl. by rewrite IH.
Qed.

Lemma app_String x (a b : string) : String x a ++ b = String x (a ++ b).
Proof. done. Qed.

(** A literal that is a prefix of [a ++ b] is a prefix of [a], or
    reaches into [b]. *)
Lemma strip_prefix_app_inv pre a b r :
  Js.strip_prefix pre (a ++ b) = Some r →
  (∃ r', Js.strip_prefix pre a = Some r' ∧ r = r' ++ b)
  ∨ (∃ pre2, pre = a ++ pre2 ∧ Js.strip_prefix pre2 b = Some r).
Proof.
  revert a. induction pre as [|x pre IH]; intros a; simpl.
  - intros [= <-]. left. by exists a.
  - destruct a as [|y a]; simpl.
    + intros H. right. exists (String x pre). by split.
    + destruct (Ascii.eqb_spec x y) as [->|]; [|done].
      intros H. destruct (IH _ H) as [(r' & ? & ?)|(pre2 & -> & ?)].
      * left. by exists r'.
      * right. by exists pre2.
Qed.

End StringFacts.

(** ** Fence clean-up *)

Section CleanCode.

Lemma clean_code_unfenced code :
  Js.startsWith code "```" = false → TestRunner.clean_code code = code.
Proof. unfold TestRunner.clean_code. by intros ->. Qed.

Lemma clean_code_no_tag body :
  TestRunner.clean_code (Fenced "" body) = body.
Proof.
  unfold TestRunner.clean_code, Fenced. simpl.
  apply (replace_tail_app (String Js.LF "```")).
Qed.

Lemma clean_code_typescript body :
  Js.startsWith body ("```" ++ Js.nl) = false →
  TestRunner.clean_code (Fenced "typescript" body) = body.
Proof.
  intros Hbody. unfold TestRunner.clean_code.
  change (Fenced "typescript" body)
    with (("```typescript" ++ Js.nl) ++ (body ++ (Js.nl ++ "```"))).
  replace (Js.startsWith _ "```") with true by done.
  unfold Js.replace_head at 2. rewrite strip_prefix_app.
  unfold Js.replace_head.
  destruct (Js.strip_prefix _ _) as [r|] eqn:E.
  - apply strip_prefix_app_inv in E as [(r' & E & _)|(pre2 & E1 & E2)].
    + unfold Js.startsWith in Hbody. by rewrite E in Hbody.
    + (* the opening fence reaches into the closing one: the body is a
         bare fence, and what is left is that fence again *)
      destruct body as [|c1 [|c2 [|c3 [|c4 body]]]];
        cbv in E1; simplify_eq; cbv in E2; simplify_eq.
      done.
  - apply replace_tail_app.
Qed.

End CleanCode.

(** ** Secrets and the environment of the engine *)

Section Environment.
Implicit Types env secrets : gmap string string.

Lemma child_env_lookup env secrets node_path k :
  TestRunner.child_env env secrets node_path !! k =
    if decide (k = "NODE_PATH") then Some node_path
    else match secrets !! k with
         | Some v => Some v
         | None => env !! k
         end.
Proof.
  unfold TestRunner.child_env. case_decide as Hk.
  - subst. apply lookup_insert_eq.
  - rewrite lookup_insert_ne by done. rewrite lookup_union.
    destruct (secrets !! k), (env !! k); done.
Qed.

Lemma getAllSecrets_lookup env k :
  EnvSecretsProvider.getAllSecrets env !! k =
    match env !! k with
    | Some v => if Js.startsWith k "TEST_" && Js.truthy v then Some v else None
    | None => None
    end.
Proof.
  unfold EnvSecretsProvider.getAllSecrets. rewrite map_lookup_filter.
  destruct (env !! k) as [v|]; simpl; [|done].
  case_guard as Hg; simpl in Hg.
  - by rewrite Hg.
  - by apply not_true_is_false in Hg as ->.
Qed.

Lemma getSecretsForPlaywright_lookup env k :
  EnvSecretsProvider.getSecretsForPlaywright env !! k =
    match env !! k with
    | Some v =>
        if (Js.startsWith k "TEST_" || String.eqb k "BASE_URL") && Js.truthy v
        then Some v else None
    | None => None
    end.
Proof.
  unfold EnvSecretsProvider.getSecretsForPlaywright.
  destruct (String.eqb_spec k "BASE_URL") as [->|Hk].
  - rewrite orb_true_r. simpl.
    destruct (env !! "BASE_URL") as [v|] eqn:E.
    + destruct (Js.truthy v) eqn:Hv.
      * by rewrite lookup_insert_eq.
      * rewrite getAllSecrets_lookup, E, Hv. by rewrite andb_false_r.
    + by rewrite getAllSecrets_lookup, E.
  - rewrite orb_false_r.
    destruct (env !! "BASE_URL") as [u|]; [destruct (Js.truthy u)|];
      rewrite ?lookup_insert_ne by done; apply getAllSecrets_lookup.
Qed.

(** ** C1 (as amended).  The environment handed to the engine holds, for
    every key other than [NODE_PATH], the value of the secrets mapping when
    the key is a secret and the inherited value otherwise, so a secret takes
    precedence over an inherited variable of the same name; [NODE_PATH] is
    always the path of the runner's modules.  With the secrets the provider
    assembles from the same environment, every key other than [NODE_PATH]
    keeps its inherited value. *)
Theorem C1_child_env_secrets_take_precedence env secrets node_path k :
  TestRunner.child_env env secrets node_path !! k =
    (if decide (k = "NODE_PATH") then Some node_path
     else match secrets !! k with
          | Some v => Some v
          | None => env !! k
          end)
  ∧ TestRunner.child_env env
      (EnvSecretsProvider.getSecretsForPlaywright env) node_path !! k =
    (if decide (k = "NODE_PATH") then Some node_path else env !! k).
Proof.
  split; [apply child_env_lookup|].
  rewrite child_env_lookup. case_decide; [done|].
  rewrite getSecretsForPlaywright_lookup.
  destruct (env !! k) as [v|]; [|done]. by destruct (_ && _).
Qed.

(** The claim as stated fails: an inherited variable that is also a secret
    takes the value of the secret. *)
Lemma C1_secret_overrides_inherited :
  let env : gmap string string := {[ "BASE_URL" := "http://inherited" ]} in
  let secrets : gmap string string := {[ "BASE_URL" := "http://secret" ]} in
  is_Some (env !! "BASE_URL") ∧ is_Some (secrets !! "BASE_URL")
  ∧ TestRunner.child_env env secrets "/runner/node_modules" !! "BASE_URL"
    ≠ env !! "BASE_URL".
Proof. split_and!; [by eexists|by eexists|]. by vm_compute. Qed.

(** ** C9 (as amended).  Two environments that agree on every variable
    whose name starts with [TEST_] and on [BASE_URL] yield the same bundle,
    and a bundle holds only such variables, with the value the environment
    gives them, which is never the empty string. *)
Theorem C9_secrets_bundle_keys env1 env2 :
  (∀ k, Js.startsWith k "TEST_" = true ∨ k = "BASE_URL" →
     env1 !! k = env2 !! k) →
  EnvSecretsProvider.getSecretsForPlaywright env1
  = EnvSecretsProvider.getSecretsForPlaywright env2
  ∧ ∀ k v, EnvSecretsProvider.getSecretsForPlaywright env1 !! k = Some v →
      (Js.startsWith k "TEST_" = true ∨ k = "BASE_URL")
      ∧ env1 !! k = Some v ∧ v ≠ "".
Proof.
  intros Hagree. split.
  - apply map_eq. intros k.
    rewrite !getSecretsForPlaywright_lookup.
    destruct (Js.startsWith k "TEST_") eqn:Hp; simpl.
    + by rewrite (Hagree k) by auto.
    + destruct (String.eqb_spec k "BASE_URL") as [->|]; simpl.
      * by rewrite (Hagree "BASE_URL") by auto.
      * by destruct (env1 !! k), (env2 !! k).
  - intros k v. rewrite getSecretsForPlaywright_lookup.
    assert (∀ u, Js.truthy u = true → u ≠ "") as Htruthy
      by (by intros u Hu ->).
    destruct (env1 !! k) as [u|]; [|done].
    destruct (Js.startsWith k "TEST_") eqn:Hp; simpl.
    + destruct (Js.truthy u) eqn:Hu; [|done]. intros [= ->]. auto.
    + destruct (String.eqb_spec k "BASE_URL") as [->|]; simpl; [|done].
      destruct (Js.truthy u) eqn:Hu; [|done]. intros [= ->]. auto.
Qed.

Lemma C9_secrets_bundle_keys_witness :
  EnvSecretsProvider.getSecretsForPlaywright
    (<["HOME" := "/root"]> {[ "TEST_USER" := "u" ]})
  = EnvSecretsProvider.getSecretsForPlaywright
      (<["HOME" := "/home/ci"]> (<["CI" := "1"]> {[ "TEST_USER" := "u" ]})).
Proof.
  apply (C9_secrets_bundle_keys
           (<["HOME" := "/root"]> {[ "TEST_USER" := "u" ]})
           (<["HOME" := "/home/ci"]> (<["CI" := "1"]> {[ "TEST_USER" := "u" ]}))).
  intros k Hk.
  assert (k ≠ "HOME" ∧ k ≠ "CI") as [? ?]
    by (split; intros ->; by destruct Hk).
  by rewrite !lookup_insert_ne.
Defined.

(** The claim as stated fails: [BASE_URL] does not start with [TEST_], yet
    it is part of the bundle, and two environments that agree on every
    [TEST_] variable yield different bundles. *)
Lemma C9_unprefixed_key_in_bundle :
  let env1 : gmap string string := {[ "BASE_URL" := "http://staging" ]} in
  let env2 : gmap string string := ∅ in
  (∀ k, Js.startsWith k "TEST_" = true → env1 !! k = env2 !! k)
  ∧ Js.startsWith "BASE_URL" "TEST_" = false
  ∧ EnvSecretsProvider.getSecretsForPlaywright env1 !! "BASE_URL"
    = Some "http://staging"
  ∧ EnvSecretsProvider.getSecretsForPlaywright env1
    ≠ EnvSecretsProvider.getSecretsForPlaywright env2.
Proof.
  split_and!.
  - intros k Hk. rewrite lookup_empty. apply lookup_singleton_ne.
    by intros <-.
  - done.
  - done.
  - intros E.
    apply (f_equal (λ m : gmap string string, m !! "BASE_URL")) in E.
    by vm_compute in E.
Qed.

End Environment.

(** ** Records of a spec *)

Section Records.

Lemma last_default_irrelevant {A} (x d d' : A) (l : list A) :
  List.last (x :: l) d = List.last (x :: l) d'.
Proof.
  revert x. induction l as [|y l IH]; intros x; [done|].
  change (List.last (y :: l) d = List.last (y :: l) d'). apply IH.
Qed.

Lemma last_cons_default {A} (r : A) (rs : list A) :
  last (r :: rs) = Some (List.last rs r).
Proof.
  revert r. induction rs as [|x rs IH]; intros r; [done|].
  rewrite last_cons_cons, IH. f_equal.
  destruct rs as [|y rs]; [done|].
  change (List.last (y :: rs) x = List.last (y :: rs) r).
  apply last_default_irrelevant.
Qed.

(** ** C4 (as amended).  A spec whose first test entry has attempts yields
    exactly one record, taken from the last attempt: [passed] says whether
    its status is [passed], the duration and the error message are the
    attempt's own (the message is carried whenever the attempt has one,
    whatever its status); with no attempt there is no record. *)
Theorem C4_record_from_last_attempt testCardId spec test others attempts :
  PlaywrightJsonSpec.tests spec = Some (test :: others) →
  PlaywrightJsonTest.results test = Some attempts →
  TestRunner.spec_results testCardId spec =
    match last attempts with
    | None => []
    | Some latest =>
        let passed :=
          bool_decide (PlaywrightJsonResult.status latest
                       = PlaywrightJsonResult.passed) in
        [ {| TestResultSubmission.test_card_id := testCardId;
             TestResultSubmission.passed := passed;
             TestResultSubmission.duration_ms :=
               PlaywrightJsonResult.duration latest;
             TestResultSubmission.error_message :=
               PlaywrightJsonResult.error latest;
             TestResultSubmission.status :=
               if passed then TestResultSubmission.passed_
               else TestResultSubmission.failed_ |} ]
    end.
Proof.
  intros Htests Hresults. unfold TestRunner.spec_results.
  rewrite Htests, Hresults.
  destruct attempts as [|r rs]; [done|].
  by rewrite last_cons_default.
Qed.

(** A first attempt that fails and a second that passes: one record,
    [passed = true]. *)
Lemma C4_record_from_last_attempt_witness :
  TestRunner.spec_results "card-1"
    (PlaywrightJsonSpec.mk "logs in"
       (Some [PlaywrightJsonTest.mk "logs in"
                (Some [PlaywrightJsonResult.mk PlaywrightJsonResult.failed 900
                         (Some "timeout");
                       PlaywrightJsonResult.mk PlaywrightJsonResult.passed 450
                         None])]))
  = [ TestResultSubmission.mk "card-1" true 450 None TestResultSubmission.passed_ ].
Proof.
  pose (attempts :=
          [PlaywrightJsonResult.mk PlaywrightJsonResult.failed 900 (Some "timeout");
           PlaywrightJsonResult.mk PlaywrightJsonResult.passed 450 None]).
  exact (C4_record_from_last_attempt "card-1"
           (PlaywrightJsonSpec.mk "logs in"
              (Some [PlaywrightJsonTest.mk "logs in" (Some attempts)]))
           (PlaywrightJsonTest.mk "logs in" (Some attempts)) [] attempts
           eq_refl eq_refl).
Defined.

(** The claim as stated fails where it says that the message is carried
    only on failure: a last attempt that passed and has an error object
    gives a record with [passed = true] and that message. *)
Lemma C4_error_message_on_passed_attempt :
  ∃ r, TestRunner.spec_results "card-1"
         (PlaywrightJsonSpec.mk "logs in"
            (Some [PlaywrightJsonTest.mk "logs in"
                     (Some [PlaywrightJsonResult.mk PlaywrightJsonResult.passed 450
                              (Some "soft assertion failed")])]))
       = [r]
     ∧ TestResultSubmission.passed r = true
     ∧ TestResultSubmission.error_message r = Some "soft assertion failed".
Proof. by eexists. Qed.

Lemma spec_results_first_test_only testCardId spec :
  TestRunner.spec_results testCardId (first_test_only spec)
  = TestRunner.spec_results testCardId spec.
Proof.
  unfold TestRunner.spec_results, first_test_only.
  by destruct spec as [? [[|? ?]|]].
Qed.

Lemma spec_results_length testCardId spec :
  (length (TestRunner.spec_results testCardId spec) ≤ 1)%nat.
Proof.
  unfold TestRunner.spec_results.
  destruct (PlaywrightJsonSpec.tests spec) as [[|test ?]|]; simpl; [lia| |lia].
  destruct (PlaywrightJsonTest.results test) as [[|? ?]|]; simpl; lia.
Qed.

Lemma flat_map_first_test_only testCardId specs :
  List.flat_map (TestRunner.spec_results testCardId)
    (List.map first_test_only specs)
  = List.flat_map (TestRunner.spec_results testCardId) specs.
Proof.
  induction specs as [|spec specs IH]; [done|]. simpl.
  by rewrite spec_results_first_test_only, IH.
Qed.

(** ** C10.  Of every spec only the first test entry is read: a spec
    yields at most one record, the report with all later entries removed
    yields the same records, and it leaves the same state behind, the
    console included, so nothing is printed about the entries dropped. *)
Theorem C10_only_first_test_entry self results suites st testCardId spec :
  TestRunner.collect_results self results (List.map first_tests_only suites) st
  = TestRunner.collect_results self results suites st
  ∧ TestRunner.spec_results testCardId (first_test_only spec)
    = TestRunner.spec_results testCardId spec
  ∧ (length (TestRunner.spec_results testCardId spec) ≤ 1)%nat.
Proof.
  split_and!;
    [|apply spec_results_first_test_only|apply spec_results_length].
  revert results st.
  induction suites as [|suite suites IH]; intros results st; [done|].
  cbn [List.map TestRunner.collect_results].
  unfold mbind, M_bind, bind, get_state.
  cbn [first_tests_only PlaywrightJsonSuite.file PlaywrightJsonSuite.specs].
  destruct (TestRunner.suite_cardId _ _ _) as [testCardId'|].
  - rewrite IH.
    destruct (PlaywrightJsonSuite.specs suite) as [specs|]; simpl; [|done].
    by rewrite flat_map_first_test_only.
  - destruct (log _ st) as [[[]|e] st']; [apply IH|done].
Qed.

End Records.

(** ** File system *)

Section FileSystem.
Implicit Types f : gmap string Fs.node.

Lemma mkdir_chain_keeps ps f f' q x :
  Fs.mkdir_chain ps f = Some f' → f !! q = Some x → f' !! q = Some x.
Proof.
  revert f. induction ps as [|p ps IH]; intros f; simpl.
  - by intros [= <-].
  - destruct (f !! p) as [[|c]|] eqn:Hp; [apply IH|done|].
    intros Hmk Hq. apply (IH _ Hmk).
    rewrite lookup_insert_ne; [done|]. intros <-. congruence.
Qed.

Lemma writeFileSync_Some p content f f' :
  Fs.writeFileSync p content f = Some f' → f' = <[p := Fs.File content]> f.
Proof.
  unfold Fs.writeFileSync. intros H.
  repeat case_match; by simplify_eq.
Qed.

Lemma within_refl p : Fs.within p p = true.
Proof. unfold Fs.within. by rewrite String.eqb_refl. Qed.

Lemma rmSync_gone p f : Fs.rmSync p f !! p = None.
Proof.
  unfold Fs.rmSync. apply map_lookup_filter_None. right.
  intros x _. simpl. by rewrite within_refl.
Qed.

End FileSystem.

(** ** Materialization: [writeTestFiles] *)

Section Materialize.
Context (self : TestRunner.t).

Lemma bind_eq {A B} (m : M A) (k : A → M B) st :
  (m ≫= k) st =
    match m st with
    | (Ok a, st') => k a st'
    | (Throw e, st') => (Throw e, st')
    end.
Proof. done. Qed.

(** What a successful pass of the loop body leaves behind. *)
Lemma write_test_Ok test code st st' :
  TestRunner.write_test self test code st = (Ok tt, st') →
  fs st' !! target self test = Some (Fs.File (TestRunner.clean_code code))
  ∧ testFileToCardIdMap st'
    = <[target self test := ExportedTest.id test]> (testFileToCardIdMap st)
  ∧ (∀ q x, q ≠ target self test → fs st !! q = Some x → fs st' !! q = Some x).
Proof.
  unfold TestRunner.write_test, target.
  set (fullPath := Path.join _ _). set (dir := Path.dirname _).
  unfold mbind, M_bind, bind, get_state, fs_call, mret, M_ret, ret.
  destruct (negb _).
  - destruct (Fs.mkdirSync dir (fs st)) as [f1|] eqn:Hmk; [|done].
    cbn [set_fs fs].
    destruct (Fs.writeFileSync fullPath _ f1) as [f2|] eqn:Hw; [|done].
    apply writeFileSync_Some in Hw as ->.
    intros [= <-]. cbn. split_and!; [apply lookup_insert_eq|done|].
    intros q x Hq Hx. rewrite lookup_insert_ne by done.
    by apply (mkdir_chain_keeps _ _ _ _ _ Hmk).
  - destruct (Fs.writeFileSync fullPath _ (fs st)) as [f2|] eqn:Hw; [|done].
    apply writeFileSync_Some in Hw as ->.
    intros [= <-]. cbn. split_and!; [apply lookup_insert_eq|done|].
    intros q x Hq Hx. by rewrite lookup_insert_ne.
Qed.

(** The two ways through the loop body. *)
Lemma writeTestFiles_from_skip written test rest st :
  EirTestsClient.has_code test = false →
  TestRunner.writeTestFiles_from self written (test :: rest) st
  = TestRunner.writeTestFiles_from self written rest
      (log (Console.Skipping (ExportedTest.title test)) st).2.
Proof.
  unfold EirTestsClient.has_code. cbn [TestRunner.writeTestFiles_from].
  destruct (ExportedTest.playwright_code test) as [code|]; [intros ->|]; done.
Qed.

Lemma writeTestFiles_from_write written test code rest st :
  ExportedTest.playwright_code test = Some code → Js.truthy code = true →
  TestRunner.writeTestFiles_from self written (test :: rest) st
  = match TestRunner.write_test self test code st with
    | (Ok _, st1) => TestRunner.writeTestFiles_from self (S written) rest st1
    | (Throw e, st1) => (Throw e, st1)
    end.
Proof.
  intros Hcode Htruthy. cbn [TestRunner.writeTestFiles_from].
  by rewrite Hcode, Htruthy.
Qed.

Lemma has_code_Some test :
  EirTestsClient.has_code test = true →
  ∃ code, ExportedTest.playwright_code test = Some code ∧ Js.truthy code = true.
Proof.
  unfold EirTestsClient.has_code.
  destruct (ExportedTest.playwright_code test) as [code|]; [|done]. eauto.
Qed.

(** The loop over [tests1 ++ tests2] is the loop over [tests1] followed
    by the loop over [tests2]; an error in the first part ends it. *)
Lemma writeTestFiles_from_app written tests1 tests2 st :
  TestRunner.writeTestFiles_from self written (tests1 ++ tests2) st
  = match TestRunner.writeTestFiles_from self written tests1 st with
    | (Ok written', st1) => TestRunner.writeTestFiles_from self written' tests2 st1
    | (Throw e, st1) => (Throw e, st1)
    end.
Proof.
  revert written st.
  induction tests1 as [|test tests1 IH]; intros written st; [done|].
  rewrite <-app_comm_cons.
  destruct (EirTestsClient.has_code test) eqn:Hc.
  - destruct (has_code_Some _ Hc) as (code & Hcode & Htruthy).
    rewrite !(writeTestFiles_from_write _ _ code) by done.
    destruct (TestRunner.write_test self test code st) as [[[]|e] st1]; [|done].
    apply IH.
  - rewrite !writeTestFiles_from_skip by done. apply IH.
Qed.

Lemma writeTestFiles_from_count written tests st n st' :
  TestRunner.writeTestFiles_from self written tests st = (Ok n, st') →
  n = written + length (List.filter EirTestsClient.has_code tests).
Proof.
  revert written st.
  induction tests as [|test tests IH]; intros written st.
  - intros [= <- <-]. simpl. lia.
  - simpl List.filter. destruct (EirTestsClient.has_code test) eqn:Hc.
    + destruct (has_code_Some _ Hc) as (code & Hcode & Htruthy).
      rewrite (writeTestFiles_from_write _ _ code) by done.
      destruct (TestRunner.write_test self test code st) as [[[]|e] st1]; [|done].
      intros H%IH. simpl. lia.
    + rewrite writeTestFiles_from_skip by done. apply IH.
Qed.

(** A path no test of the list is written to keeps its file and its
    entry of the map. *)
Lemma writeTestFiles_from_keeps written tests st n st' q :
  TestRunner.writeTestFiles_from self written tests st = (Ok n, st') →
  (∀ test, test ∈ tests → EirTestsClient.has_code test = true →
     target self test ≠ q) →
  (∀ x, fs st !! q = Some x → fs st' !! q = Some x)
  ∧ testFileToCardIdMap st' !! q = testFileToCardIdMap st !! q.
Proof.
  revert written st.
  induction tests as [|test tests IH]; intros written st.
  - by intros [= <- <-].
  - intros Hrun Hother.
    assert (∀ test', test' ∈ tests → EirTestsClient.has_code test' = true →
              target self test' ≠ q) as Hother'
      by (intros ???; apply Hother; [apply elem_of_cons; by right|done]).
    destruct (EirTestsClient.has_code test) eqn:Hc.
    + destruct (has_code_Some _ Hc) as (code & Hcode & Htruthy).
      rewrite (writeTestFiles_from_write _ _ code) in Hrun by done.
      destruct (TestRunner.write_test self test code st) as [[[]|e] st1] eqn:Hw;
        [|done].
      apply write_test_Ok in Hw as (_ & Hmap & Hkeep).
      destruct (IH _ _ Hrun Hother') as [Hfs Hcards].
      assert (q ≠ target self test) as Hq
        by (intros ->; apply (Hother test); [apply elem_of_cons; by left|done..]).
      split.
      * intros x Hx. apply Hfs. by apply Hkeep.
      * rewrite Hcards, Hmap. by rewrite lookup_insert_ne.
    + rewrite writeTestFiles_from_skip in Hrun by done.
      apply (IH _ _ Hrun Hother').
Qed.

(** After a successful run of the loop, the path of a test with code
    holds the cleaned code and the id of the last test written there. *)
Lemma writeTestFiles_last written tests1 test code tests2 st n st' :
  TestRunner.writeTestFiles_from self written (tests1 ++ test :: tests2) st
    = (Ok n, st') →
  ExportedTest.playwright_code test = Some code → Js.truthy code = true →
  last_at_target self test tests2 →
  fs st' !! target self test = Some (Fs.File (TestRunner.clean_code code))
  ∧ testFileToCardIdMap st' !! target self test = Some (ExportedTest.id test).
Proof.
  intros Hrun Hcode Htruthy Hlast.
  rewrite writeTestFiles_from_app in Hrun.
  destruct (TestRunner.writeTestFiles_from self written tests1 st)
    as [[written'|e] st1]; [|done].
  rewrite (writeTestFiles_from_write _ _ code) in Hrun by done.
  destruct (TestRunner.write_test self test code st1) as [[[]|e] st2] eqn:Hw;
    [|done].
  apply write_test_Ok in Hw as (Hfile & Hmap & _).
  destruct (writeTestFiles_from_keeps _ _ _ _ _ (target self test) Hrun Hlast)
    as [Hfs Hcards].
  split; [by apply Hfs|].
  rewrite Hcards, Hmap. apply lookup_insert_eq.
Qed.

Lemma stat_keeps f f' p x :
  (∀ q y, f !! q = Some y → f' !! q = Some y) →
  Fs.stat f p = Some x → Fs.stat f' p = Some x.
Proof. unfold Fs.stat. destruct (String.eqb p "/"); [done|]. intros H. apply H. Qed.

Lemma writeFileSync_rewritable p content f f' :
  Fs.writeFileSync p content f = Some f' → rewritable f' p.
Proof.
  intros Hw. pose proof (writeFileSync_Some _ _ _ _ Hw) as ->.
  unfold Fs.writeFileSync in Hw. unfold rewritable, Fs.stat in *.
  destruct (Path.ends_with_slash p); [done|].
  destruct (String.eqb_spec p "/") as [->|Hp]; [done|].
  split; [done|]. split; [exists content; apply lookup_insert_eq|].
  destruct (String.eqb (Path.dirname p) "/"); [done|].
  destruct (f !! p) as [[|c]|] eqn:Hfp; [done|..];
    (destruct (f !! Path.dirname p) as [[|c']|] eqn:Hd; [|done..]);
    (rewrite lookup_insert_ne; [done|]; intros E; rewrite E in Hfp; congruence).
Qed.

Lemma writeFileSync_keeps_rewritable q content f f' p :
  Fs.writeFileSync q content f = Some f' → rewritable f p → rewritable f' p.
Proof.
  intros Hw (Hslash & [c Hfile] & Hdir).
  destruct (decide (q = p)) as [->|Hqp];
    [by apply (writeFileSync_rewritable _ _ _ _ Hw)|].
  pose proof (writeFileSync_Some _ _ _ _ Hw) as ->.
  unfold Fs.writeFileSync in Hw. unfold rewritable, Fs.stat in *.
  destruct (Path.ends_with_slash q); [done|].
  split; [done|]. split.
  - exists c. destruct (String.eqb p "/"); [done|]. by rewrite lookup_insert_ne.
  - destruct (String.eqb (Path.dirname p) "/"); [done|].
    rewrite lookup_insert_ne; [done|]. intros ->.
    destruct (String.eqb (Path.dirname p) "/"); [done|].
    by rewrite Hdir in Hw.
Qed.

(** What the loop body did when it succeeds: some directories were created
    and the file was written. *)
Lemma write_test_inv test code st st' :
  TestRunner.write_test self test code st = (Ok tt, st') →
  ∃ f1, (∀ q x, fs st !! q = Some x → f1 !! q = Some x)
        ∧ Fs.writeFileSync (target self test) (TestRunner.clean_code code) f1
          = Some (fs st').
Proof.
  unfold TestRunner.write_test, target.
  set (fullPath := Path.join _ _). set (dir := Path.dirname _).
  unfold mbind, M_bind, bind, get_state, fs_call, mret, M_ret, ret.
  destruct (negb _).
  - destruct (Fs.mkdirSync dir (fs st)) as [f1|] eqn:Hmk; [|done].
    cbn [set_fs fs].
    destruct (Fs.writeFileSync fullPath _ f1) as [f2|] eqn:Hw; [|done].
    intros [= <-]. exists f1. split; [|done].
    intros q x. by apply (mkdir_chain_keeps _ _ _ _ _ Hmk).
  - destruct (Fs.writeFileSync fullPath _ (fs st)) as [f2|] eqn:Hw; [|done].
    intros [= <-]. by exists (fs st).
Qed.

Lemma write_test_rewritable test code st st' :
  TestRunner.write_test self test code st = (Ok tt, st') →
  rewritable (fs st') (target self test)
  ∧ ∀ p, rewritable (fs st) p → rewritable (fs st') p.
Proof.
  intros (f1 & Hkeep & Hw)%write_test_inv. split.
  - by apply (writeFileSync_rewritable _ _ _ _ Hw).
  - intros p (Hslash & [c Hfile] & Hdir).
    apply (writeFileSync_keeps_rewritable _ _ _ _ _ Hw).
    split_and!; [done|exists c|]; by eapply stat_keeps.
Qed.

Lemma writeTestFiles_from_rewritable written tests st n st' p :
  TestRunner.writeTestFiles_from self written tests st = (Ok n, st') →
  rewritable (fs st) p → rewritable (fs st') p.
Proof.
  revert written st.
  induction tests as [|test tests IH]; intros written st.
  - by intros [= <- <-].
  - destruct (EirTestsClient.has_code test) eqn:Hc.
    + destruct (has_code_Some _ Hc) as (code & Hcode & Htruthy).
      rewrite (writeTestFiles_from_write _ _ code) by done.
      destruct (TestRunner.write_test self test code st) as [[[]|e] st1] eqn:Hw;
        [|done].
      intros Hrun Hp. apply (IH _ _ Hrun).
      by apply (proj2 (write_test_rewritable _ _ _ _ Hw)).
    + rewrite writeTestFiles_from_skip by done.
      intros Hrun Hp. by apply (IH _ _ Hrun).
Qed.

(** The loop body run on a target that can be written again. *)
Lemma write_test_again test code st :
  rewritable (fs st) (target self test) →
  TestRunner.write_test self test code st
  = (Ok tt,
     {| fs := <[target self test := Fs.File (TestRunner.clean_code code)]> (fs st);
        testFileToCardIdMap :=
          <[target self test := ExportedTest.id test]> (testFileToCardIdMap st);
        exportedTests := exportedTests st;
        console := Console.WroteFile (ExportedTest.file_path test) :: console st |}).
Proof.
  intros (Hslash & [c Hfile] & Hdir).
  unfold TestRunner.write_test. fold (target self test).
  unfold mbind, M_bind, bind, get_state, fs_call, mret, M_ret, ret.
  unfold Fs.existsSync. rewrite Hdir. cbn [negb].
  unfold Fs.writeFileSync. by rewrite Hslash, Hfile, Hdir.
Qed.

(** A definition written to a target another definition of the batch was
    written to: its write succeeds. *)
Lemma writeTestFiles_from_duplicate written tests1 first between test st n st1 :
  TestRunner.writeTestFiles_from self written (tests1 ++ first :: between) st
    = (Ok n, st1) →
  EirTestsClient.has_code first = true →
  target self test = target self first →
  rewritable (fs st1) (target self test).
Proof.
  intros Hrun Hfirst Htarget.
  rewrite writeTestFiles_from_app in Hrun.
  destruct (TestRunner.writeTestFiles_from self written tests1 st)
    as [[written'|e] st0]; [|done].
  destruct (has_code_Some _ Hfirst) as (code1 & Hcode1 & Htruthy1).
  rewrite (writeTestFiles_from_write _ _ code1) in Hrun by done.
  destruct (TestRunner.write_test self first code1 st0) as [[[]|e] st0'] eqn:Hw;
    [|done].
  apply (writeTestFiles_from_rewritable _ _ _ _ _ _ Hrun).
  rewrite Htarget. apply (proj1 (write_test_rewritable _ _ _ _ Hw)).
Qed.

End Materialize.

Section MaterializeClaims.
Context (self : TestRunner.t).

(** ** C5 (as amended).  Definitions without code are skipped and the
    loop goes on; the number returned is the number of definitions with
    code.  There is no handling of a failure per file: when the write of one
    definition fails, the whole call fails with that error, in the state the
    failed write left, and the definitions after it are not processed. *)
Theorem C5_failed_write_ends_the_batch tests1 test code tests2 st written st1 e st2 :
  TestRunner.writeTestFiles self tests1 st = (Ok written, st1) →
  ExportedTest.playwright_code test = Some code → Js.truthy code = true →
  TestRunner.write_test self test code st1 = (Throw e, st2) →
  TestRunner.writeTestFiles self (tests1 ++ test :: tests2) st = (Throw e, st2)
  ∧ written = length (List.filter EirTestsClient.has_code tests1)
  ∧ ∀ skipped, EirTestsClient.has_code skipped = false →
      TestRunner.writeTestFiles self (tests1 ++ skipped :: tests2) st
      = TestRunner.writeTestFiles_from self written tests2
          (log (Console.Skipping (ExportedTest.title skipped)) st1).2.
Proof.
  unfold TestRunner.writeTestFiles. intros Hrun Hcode Htruthy Hfail. split_and!.
  - rewrite writeTestFiles_from_app, Hrun.
    by rewrite (writeTestFiles_from_write _ _ _ code), Hfail.
  - by apply writeTestFiles_from_count in Hrun.
  - intros skipped Hskip. rewrite writeTestFiles_from_app, Hrun.
    by apply writeTestFiles_from_skip.
Qed.

(** ** C6 (as amended).  Two definitions with the same target raise no
    error: where a batch has been written, a further definition whose target
    is that of a definition of the batch is written too, as far as the layout
    of the disk decides, and it overwrites the file and the entry of the map.
    After a successful materialization the target has one entry in the map,
    the id of the last definition written there, and its file holds the code
    of that definition; the number returned counts every definition with
    code, overwritten ones included. *)
Theorem C6_last_definition_wins tests1 first between test code st n st1 :
  TestRunner.writeTestFiles self (tests1 ++ first :: between) st = (Ok n, st1) →
  EirTestsClient.has_code first = true →
  ExportedTest.playwright_code test = Some code → Js.truthy code = true →
  target self test = target self first →
  (∃ st2,
     TestRunner.write_test self test code st1 = (Ok tt, st2)
     ∧ TestRunner.writeTestFiles self (tests1 ++ first :: between ++ [test]) st
       = (Ok (S n), st2)
     ∧ testFileToCardIdMap st2 !! target self first = Some (ExportedTest.id test)
     ∧ fs st2 !! target self first = Some (Fs.File (TestRunner.clean_code code))
     ∧ S n = length (List.filter EirTestsClient.has_code
                       (tests1 ++ first :: between ++ [test])))
  ∧ ∀ tests2 n' st',
      TestRunner.writeTestFiles self
        (tests1 ++ first :: between ++ test :: tests2) st = (Ok n', st') →
      last_at_target self test tests2 →
      testFileToCardIdMap st' !! target self first = Some (ExportedTest.id test)
      ∧ fs st' !! target self first = Some (Fs.File (TestRunner.clean_code code))
      ∧ n' = length (List.filter EirTestsClient.has_code
                       (tests1 ++ first :: between ++ test :: tests2)).
Proof.
  unfold TestRunner.writeTestFiles.
  intros Hrun Hfirst Hcode Htruthy Htarget.
  assert (∀ tests2 : list ExportedTest.t,
            (tests1 ++ first :: between ++ test :: tests2
             = (tests1 ++ first :: between) ++ test :: tests2)%list) as Hlist
    by (intros tests2; by rewrite <-app_assoc).
  split.
  - pose proof (writeTestFiles_from_duplicate _ _ _ _ _ _ _ _ _ Hrun Hfirst Htarget)
      as Hagain.
    pose proof (write_test_again _ test code _ Hagain) as Hw.
    set (st2 := (TestRunner.write_test self test code st1).2).
    assert (TestRunner.write_test self test code st1 = (Ok tt, st2)) as Hw2
      by (subst st2; by rewrite Hw).
    exists st2. split; [exact Hw2|].
    assert (TestRunner.writeTestFiles_from self 0
              (tests1 ++ first :: between ++ [test])%list st = (Ok (S n), st2))
      as Hall.
    { rewrite Hlist, writeTestFiles_from_app, Hrun.
      by rewrite (writeTestFiles_from_write _ _ _ code), Hw2. }
    subst st2. rewrite Hw in *. cbn [snd] in *.
    split; [exact Hall|]. rewrite <-Htarget. cbn [testFileToCardIdMap fs].
    rewrite !lookup_insert_eq. split_and!; [done..|].
    by apply writeTestFiles_from_count in Hall.
  - intros tests2 n' st' Hall Hlast. rewrite <-Htarget.
    pose proof Hall as Hcount%writeTestFiles_from_count.
    rewrite Hlist in Hall.
    by destruct (writeTestFiles_last _ _ _ _ _ _ _ _ _ Hall Hcode Htruthy Hlast).
Qed.

(** What the clean-up does get right: the file written for a definition
    holds the text between the fences when the code is fenced without
    language tag, or with the tag [typescript] and a text that does not
    itself start with a fence line; code that does not start with a fence
    is written as it is. *)
Lemma fences_stripped tests1 test code body tests2 st n st' :
  TestRunner.writeTestFiles self (tests1 ++ test :: tests2) st = (Ok n, st') →
  ExportedTest.playwright_code test = Some code → Js.truthy code = true →
  last_at_target self test tests2 →
  code = Fenced "" body
  ∨ (code = Fenced "typescript" body ∧ Js.startsWith body ("```" ++ Js.nl) = false)
  ∨ (code = body ∧ Js.startsWith body "```" = false) →
  fs st' !! target self test = Some (Fs.File body).
Proof.
  unfold TestRunner.writeTestFiles. intros Hrun Hcode Htruthy Hlast Hshape.
  destruct (writeTestFiles_last _ _ _ _ _ _ _ _ _ Hrun Hcode Htruthy Hlast)
    as [-> _].
  do 2 f_equal. destruct Hshape as [->|[[-> Hbody]|[-> Hbody]]].
  - apply clean_code_no_tag.
  - by apply clean_code_typescript.
  - by apply clean_code_unfenced.
Qed.

End MaterializeClaims.

Section MaterializeExamples.
Import Scenario.

Lemma run_eta {A} (out : result A * state) (r : result A) :
  out.1 = r → out = (r, out.2).
Proof. intros <-. by destruct out. Qed.

Lemma C5_failed_write_ends_the_batch_witness :
  TestRunner.writeTestFiles runner [draft; login; misplaced; logout] disk
  = (Throw "write failed",
     (TestRunner.write_test runner misplaced "test('x', async () => {})"
        (TestRunner.writeTestFiles runner [draft; login] disk).2).2).
Proof.
  apply (C5_failed_write_ends_the_batch runner [draft; login] misplaced
           "test('x', async () => {})" [logout] disk 1
           (TestRunner.writeTestFiles runner [draft; login] disk).2);
    try apply run_eta; by vm_compute.
Defined.

(** The claim as stated fails: the definition that cannot be written is
    not skipped; the call throws and the definition after it is never
    written. *)
Lemma C5_one_bad_definition_aborts :
  (TestRunner.writeTestFiles runner [login; misplaced; logout] disk).1
  = Throw "write failed"
  ∧ fs (TestRunner.writeTestFiles runner [login; misplaced; logout] disk).2
      !! target runner logout = None
  ∧ (TestRunner.writeTestFiles runner [login; logout] disk).1 = Ok 2.
Proof. by vm_compute. Qed.

Lemma C6_last_definition_wins_witness :
  ∃ st2,
    TestRunner.write_test runner login_again "test('login v2', async () => {})"
      (TestRunner.writeTestFiles runner [login; logout] disk).2 = (Ok tt, st2)
    ∧ TestRunner.writeTestFiles runner [login; logout; login_again] disk
      = (Ok 3, st2)
    ∧ testFileToCardIdMap st2 !! target runner login = Some "card-login-2"
    ∧ fs st2 !! target runner login
      = Some (Fs.File (TestRunner.clean_code "test('login v2', async () => {})"))
    ∧ 3 = length (List.filter EirTestsClient.has_code [login; logout; login_again]).
Proof.
  apply (proj1 (C6_last_definition_wins runner [] login [logout] login_again
                  "test('login v2', async () => {})" disk 2
                  (TestRunner.writeTestFiles runner [login; logout] disk).2
                  (run_eta _ _ eq_refl) eq_refl eq_refl eq_refl eq_refl)).
Defined.

(** The claim as stated fails: two definitions with the same target raise
    no error; the second overwrites the file and the entry of the first. *)
Lemma C6_same_target_overwrites :
  target runner login = target runner login_again
  ∧ (TestRunner.writeTestFiles runner [login; login_again] disk).1 = Ok 2
  ∧ testFileToCardIdMap
      (TestRunner.writeTestFiles runner [login; login_again] disk).2
      !! target runner login = Some "card-login-2"
  ∧ fs (TestRunner.writeTestFiles runner [login; login_again] disk).2
      !! target runner login = Some (Fs.File "test('login v2', async () => {})").
Proof. by vm_compute. Qed.

Lemma fences_stripped_login :
  fs (TestRunner.writeTestFiles runner [login; logout] disk).2
    !! "/tmp/eirtests-1761535321504/tests/smoke/login.spec.ts"
  = Some (Fs.File "test('login', async () => {})").
Proof.
  apply (fences_stripped runner [] login
           (Fenced "typescript" "test('login', async () => {})")
           "test('login', async () => {})" [logout] disk 2
           (TestRunner.writeTestFiles runner [login; logout] disk).2).
  - apply run_eta. by vm_compute.
  - done.
  - done.
  - intros test' ->%list_elem_of_singleton _. by vm_compute.
  - right. left. by split.
Qed.

(** ** C8.  The clean-up, which is meant to remove markdown fences, misses
    every language tag other than [typescript]: for code fenced with the
    tag [ts] the closing fence is removed and the opening fence stays, so
    the file written is not the text between the fences. *)
Theorem C8_other_language_tag_stays :
  ExportedTest.playwright_code tagged_ts
    = Some (Fenced "ts" "test('t', async () => {})")
  ∧ fs (TestRunner.writeTestFiles runner [tagged_ts] disk).2
      !! target runner tagged_ts
    = Some (Fs.File ("```ts" ++ Js.nl ++ "test('t', async () => {})"))
  ∧ "```ts" ++ Js.nl ++ "test('t', async () => {})" ≠ "test('t', async () => {})".
Proof. by vm_compute. Qed.

End MaterializeExamples.

(** ** Correlation: from the reported file back to the card id *)

Section Correlate.
Context (self : TestRunner.t).

Lemma skip_digits_app digits c rest :
  Js.all_chars Js.is_digit digits = true → Js.is_digit c = false →
  Js.skip_digits (digits ++ String c rest) = String c rest.
Proof.
  intros Hd Hc. induction digits as [|d digits IH].
  - simpl. by rewrite Hc.
  - simpl in Hd. apply andb_true_iff in Hd as [Hd1 Hd2].
    rewrite app_String. simpl. rewrite Hd1. by apply IH.
Qed.

(** At the directory name itself the expression matches and captures the
    relative path. *)
Lemma match_tempDir_here_dirname digits relativePath :
  Js.truthy digits = true → Js.all_chars Js.is_digit digits = true →
  Js.truthy relativePath = true →
  Js.no_line_terminator relativePath = true →
  TestRunner.match_tempDir_here ("eirtests-" ++ digits ++ "/" ++ relativePath)
  = Some relativePath.
Proof.
  intros Hne Hdigits Hrel Hline. unfold TestRunner.match_tempDir_here.
  rewrite strip_prefix_app.
  destruct digits as [|d digits]; [done|].
  simpl in Hdigits. apply andb_true_iff in Hdigits as [Hd Hds].
  rewrite app_String, Hd.
  change (digits ++ "/" ++ relativePath)
    with (digits ++ String "/" relativePath).
  rewrite skip_digits_app by done.
  by rewrite Hrel, Hline.
Qed.

Lemma match_tempDir_eq s :
  TestRunner.match_tempDir s =
    match TestRunner.match_tempDir_here s with
    | Some rel => Some rel
    | None => match s with
              | String _ s' => TestRunner.match_tempDir s'
              | EmptyString => None
              end
    end.
Proof. by destruct s. Qed.

(** When no match starts inside the prefix, the search goes on behind it. *)
Lemma match_tempDir_skip_prefix prefix rest :
  match_starts_inside prefix rest = false →
  TestRunner.match_tempDir (prefix ++ rest) = TestRunner.match_tempDir rest.
Proof.
  induction prefix as [|c prefix IH]; [done|].
  cbn [match_starts_inside]. rewrite match_tempDir_eq.
  destruct (TestRunner.match_tempDir_here _); [done|].
  rewrite app_String. apply IH.
Qed.

Lemma suite_path_reported prefix digits relativePath :
  Js.truthy digits = true → Js.all_chars Js.is_digit digits = true →
  Js.truthy relativePath = true →
  Js.no_line_terminator relativePath = true →
  match_starts_inside prefix ("eirtests-" ++ digits ++ "/" ++ relativePath)
    = false →
  TestRunner.suite_path self (reported_file prefix digits relativePath)
  = Path.join (TestRunner.tempDir self) relativePath.
Proof.
  intros ? ? ? ? Hprefix. unfold TestRunner.suite_path, reported_file.
  rewrite match_tempDir_skip_prefix by done.
  rewrite match_tempDir_eq. by rewrite match_tempDir_here_dirname.
Qed.

(** ** C3 (as amended).  For a definition that materialization wrote, a
    suite reported under a prefix, a directory name [eirtests-<digits>], a
    slash and the relative path of the definition is mapped to the id of
    that definition, provided that the relative path is not empty and has
    no line terminator, that no text of the form [eirtests-<digits>/]
    starts a match inside the prefix (the search takes the leftmost one),
    and that the id is not the empty string. *)
Theorem C3_reported_suite_maps_to_recorded_id
    tests1 test code tests2 st n st' prefix digits :
  TestRunner.writeTestFiles self (tests1 ++ test :: tests2) st = (Ok n, st') →
  ExportedTest.playwright_code test = Some code → Js.truthy code = true →
  last_at_target self test tests2 →
  Js.truthy digits = true → Js.all_chars Js.is_digit digits = true →
  Js.truthy (ExportedTest.file_path test) = true →
  Js.no_line_terminator
    (ExportedTest.file_path test) = true →
  match_starts_inside prefix
    ("eirtests-" ++ digits ++ "/" ++ ExportedTest.file_path test) = false →
  Js.truthy (ExportedTest.id test) = true →
  TestRunner.suite_cardId self (testFileToCardIdMap st')
    (reported_file prefix digits (ExportedTest.file_path test))
  = Some (ExportedTest.id test).
Proof.
  unfold TestRunner.writeTestFiles.
  intros Hrun Hcode Htruthy Hlast ? ? ? ? ? Hid.
  destruct (writeTestFiles_last _ _ _ _ _ _ _ _ _ Hrun Hcode Htruthy Hlast)
    as [_ Hcard].
  unfold TestRunner.suite_cardId. rewrite suite_path_reported by done.
  fold (target self test). by rewrite Hcard, Hid.
Qed.

End Correlate.

Section CorrelateExamples.
Import Scenario.

Lemma C3_reported_suite_maps_to_recorded_id_witness :
  TestRunner.suite_cardId runner
    (testFileToCardIdMap (TestRunner.writeTestFiles runner [login; logout] disk).2)
    "/home/ci/work/eirtests-1761535321504/tests/smoke/login.spec.ts"
  = Some "card-login".
Proof.
  apply (C3_reported_suite_maps_to_recorded_id runner [] login
           (Fenced "typescript" "test('login', async () => {})") [logout]
           disk 2 (TestRunner.writeTestFiles runner [login; logout] disk).2
           "/home/ci/work/" "1761535321504").
  - apply run_eta. by vm_compute.
  - done.
  - done.
  - intros test' ->%list_elem_of_singleton _. by vm_compute.
  - done.
  - done.
  - done.
  - done.
  - by vm_compute.
  - done.
Defined.

(** The claim as stated fails for a prefix that itself holds a directory
    name of that form: the leftmost match is taken, the wrong relative path
    is captured, and the suite is dropped although materialization recorded
    its file. *)
Lemma C3_prefix_with_directory_name_is_unmatched :
  let cards :=
    testFileToCardIdMap (TestRunner.writeTestFiles runner [login] disk).2 in
  cards !! target runner login = Some "card-login"
  ∧ TestRunner.suite_cardId runner cards
      (reported_file "/builds/eirtests-1/" "1761535321504"
         "tests/smoke/login.spec.ts")
    = None.
Proof. by vm_compute. Qed.

(** The dot takes neither U+2028 nor U+2029: a reported file that holds
    one of them after the directory name is not matched. *)
Lemma separator_is_not_matched :
  TestRunner.match_tempDir ("/work/eirtests-1/a" ++ Js.LS ++ "b.spec.ts") = None
  ∧ TestRunner.match_tempDir ("/work/eirtests-1/a" ++ Js.PS ++ "b.spec.ts") = None
  ∧ TestRunner.match_tempDir "/work/eirtests-1/ab.spec.ts" = Some "ab.spec.ts".
Proof. by vm_compute. Qed.

End CorrelateExamples.

(** ** The orchestrator: [run] *)

Section Run.
Context (w : World) (self : TestRunner.t).

(** One step of a computation known to end without error: the first
    action did not throw. *)
Ltac step_in H :=
  rewrite bind_eq in H;
  cbn [log set_exportedTests set_fs
       fs testFileToCardIdMap exportedTests console] in H;
  lazymatch type of H with
  | match ?x with _ => _ end = _ =>
      let E := fresh "E" in
      destruct x as [[?|?] ?] eqn:E; [|discriminate H]
  | _ => idtac
  end;
  repeat match goal with u : unit |- _ => destruct u end.

(** One step of the computation in the goal, along the equations the
    steps in a hypothesis have left. *)
Ltac step_goal :=
  rewrite bind_eq;
  cbn [log set_exportedTests set_fs
       fs testFileToCardIdMap exportedTests console];
  try match goal with
      | E : ?x = _ |- context [match ?x with _ => _ end] => rewrite E
      end.

Lemma cleanup_total st : ∃ st', TestRunner.cleanup self st = (Ok tt, st').
Proof.
  unfold TestRunner.cleanup. rewrite bind_eq. unfold get_state.
  destruct (Fs.existsSync _ _); by eexists.
Qed.

(** After [cleanup] the workspace is gone. *)
Lemma cleanup_gone st st' :
  TestRunner.tempDir self ≠ "/" →
  TestRunner.cleanup self st = (Ok tt, st') →
  Fs.existsSync (fs st') (TestRunner.tempDir self) = false.
Proof.
  intros Hroot. unfold TestRunner.cleanup. rewrite bind_eq. unfold get_state.
  destruct (Fs.existsSync _ _) eqn:Hex.
  - intros [= <-]. cbn. unfold Fs.existsSync, Fs.stat.
    apply String.eqb_neq in Hroot as ->. by rewrite rmSync_gone.
  - by intros [= <-].
Qed.

(** On a workspace that is gone [cleanup] does nothing. *)
Lemma cleanup_noop st :
  Fs.existsSync (fs st) (TestRunner.tempDir self) = false →
  TestRunner.cleanup self st = (Ok tt, st).
Proof.
  intros Hex. unfold TestRunner.cleanup. rewrite bind_eq. unfold get_state.
  by rewrite Hex.
Qed.

(** [reportResults] catches whatever its body throws. *)
Lemma reportResults_total startTime finishTime exitCode st :
  ∃ st', TestRunner.reportResults w self startTime finishTime exitCode st
         = (Ok tt, st').
Proof.
  unfold TestRunner.reportResults. rewrite bind_eq. unfold get_state.
  destruct (exportedTests st) as [exported|]; [|by eexists].
  unfold try_catch.
  match goal with |- context [match ?body st with _ => _ end] =>
    destruct (body st) as [[[]|e] st1] end; by eexists.
Qed.

Lemma executeTests_eq secrets st :
  TestRunner.executeTests w self secrets st =
    let out := execSync w ("npx playwright test " ++ TestRunner.tempDir self)
                 (TestRunner.child_env (process_env w) secrets
                    (Path.join (script_dirname w) "../node_modules"))
                 (process_cwd w) (fs st) in
    (Ok (TestRunner.exit_status out.2),
     {| fs := out.1; testFileToCardIdMap := testFileToCardIdMap st;
        exportedTests := exportedTests st; console := console st |}).
Proof.
  unfold TestRunner.executeTests. rewrite bind_eq. unfold get_state.
  by destruct (execSync _ _ _ _ _).
Qed.

(** The [try] block of [run], when it ends without error, ends after a
    [cleanup]. *)
Lemma run_gone code st st' :
  TestRunner.tempDir self ≠ "/" →
  TestRunner.run w self st = (Ok code, st') →
  Fs.existsSync (fs st') (TestRunner.tempDir self) = false.
Proof.
  intros Hroot. unfold TestRunner.run, try_catch.
  match goal with |- context [match ?body st with _ => _ end] =>
    destruct (body st) as [[c|e] st1] eqn:Hbody end.
  - intros [= <- <-]. revert Hbody.
    intros H. repeat step_in H.
    destruct (_ =? 0)%nat;
      repeat step_in H; unfold mret, M_ret, ret in H; injection H as <- <-;
      match goal with E : TestRunner.cleanup _ _ = _ |- _ =>
        by apply cleanup_gone in E end.
  - rewrite bind_eq. cbn [log]. rewrite bind_eq.
    destruct (TestRunner.cleanup _ _) as [[[]|e'] st2] eqn:E; [|done].
    intros [= <- <-]. by apply cleanup_gone in E.
Qed.

Lemma run_total st : ∃ code st', TestRunner.run w self st = (Ok code, st').
Proof.
  unfold TestRunner.run, try_catch.
  match goal with |- context [match ?body st with _ => _ end] =>
    destruct (body st) as [[c|e] st1] end; [by eauto|].
  rewrite bind_eq. cbn [log]. rewrite bind_eq.
  match goal with |- context [TestRunner.cleanup self ?s] =>
    destruct (cleanup_total s) as [st2 ->] end.
  by eauto.
Qed.

(** The stages before the execution keep the tests that were fetched. *)
Lemma createTempDirectory_exported st st' :
  TestRunner.createTempDirectory self st = (Ok tt, st') →
  exportedTests st' = exportedTests st.
Proof.
  unfold TestRunner.createTempDirectory. rewrite bind_eq.
  unfold get_state, fs_call, mret, M_ret, ret.
  destruct (negb _); [|by intros [= <-]].
  destruct (Fs.mkdirSync _ _); [|done]. by intros [= <-].
Qed.

Lemma write_test_exported test code st st' :
  TestRunner.write_test self test code st = (Ok tt, st') →
  exportedTests st' = exportedTests st.
Proof.
  unfold TestRunner.write_test.
  unfold mbind, M_bind, bind, get_state, fs_call, mret, M_ret, ret.
  destruct (negb _).
  - destruct (Fs.mkdirSync _ _); [|done]. cbn [set_fs fs].
    destruct (Fs.writeFileSync _ _ _); [|done]. by intros [= <-].
  - destruct (Fs.writeFileSync _ _ _); [|done]. by intros [= <-].
Qed.

Lemma writeTestFiles_from_exported written tests st n st' :
  TestRunner.writeTestFiles_from self written tests st = (Ok n, st') →
  exportedTests st' = exportedTests st.
Proof.
  revert written st.
  induction tests as [|test tests IH]; intros written st.
  - by intros [= <- <-].
  - destruct (EirTestsClient.has_code test) eqn:Hc.
    + destruct (has_code_Some _ Hc) as (code & Hcode & Htruthy).
      rewrite (writeTestFiles_from_write self _ _ code) by done.
      destruct (TestRunner.write_test self test code st) as [[[]|e] st1] eqn:Hw;
        [|done].
      intros ->%IH. by apply write_test_exported in Hw.
    + rewrite writeTestFiles_from_skip by done. by intros ->%IH.
Qed.

(** ** C7.  Once the stages before the execution have gone through and
    at least one file was written, [run] returns the exit code of the
    engine, whatever the engine leaves on disk, whatever the report file
    parses to and whatever the submission answers.  The results are reported
    in the state the engine left, with the tests that were fetched, and the
    only things [run] does after that are the clean-up and the closing line.
    [reportResults] never throws: whatever its [try] block throws is printed
    as a warning and the call returns.  So it is for a report that cannot be
    read, for one that does not parse, and, once there is a record to send,
    for a submission that fails on the network or is rejected. *)
Theorem C7_exit_code_is_engine_exit_code testsWritten st st1 :
  before_execute w self st = (Ok testsWritten, st1) →
  testsWritten ≠ 0 →
  let exitCode := engine_exit_code w self st1 in
  let reported :=
    (TestRunner.reportResults w self (clock_start w) (clock_finish w) exitCode
       (after_execute w self st1)).2 in
  let jsonResultsPath := Path.join (process_cwd w) "test-results.json" in
  let url := EirTestsConfig.apiUrl (TestRunner.config self)
             ++ "/api/testing/submit-runner-results" in
  TestRunner.run w self st
  = (Ok exitCode,
     (log (if (exitCode =? 0)%Z then Console.AllPassed
           else Console.SomeFailed exitCode)
        (TestRunner.cleanup self reported).2).2)
  ∧ (∃ exported, exportedTests (after_execute w self st1) = Some exported)
  ∧ (∀ startTime finishTime code st2 exported,
       exportedTests st2 = Some exported →
       TestRunner.reportResults w self startTime finishTime code st2
       = match report_attempt w self exported startTime finishTime code st2 with
         | (Ok _, st3) => (Ok tt, st3)
         | (Throw e, st3) => (Ok tt, (log (Console.ReportFailed e) st3).2)
         end)
  ∧ (∀ startTime finishTime code st2 exported,
       exportedTests st2 = Some exported →
       Fs.existsSync (fs st2) jsonResultsPath = true →
       match Fs.readFileSync jsonResultsPath (fs st2) with
       | None =>
           TestRunner.reportResults w self startTime finishTime code st2
           = (Ok tt, (log (Console.ReportFailed "read failed")
                        (log Console.Reporting st2).2).2)
       | Some jsonContent =>
           JSON_parse w jsonContent = None →
           TestRunner.reportResults w self startTime finishTime code st2
           = (Ok tt, (log (Console.ReportFailed "Unexpected token in JSON")
                        (log Console.Reporting st2).2).2)
       end)
  ∧ (∀ startTime finishTime code st2 exported jsonContent playwrightResults
       suites results st3,
       exportedTests st2 = Some exported →
       Fs.readFileSync jsonResultsPath (fs st2) = Some jsonContent →
       JSON_parse w jsonContent = Some playwrightResults →
       PlaywrightJsonReport.suites playwrightResults = Some suites →
       TestRunner.collect_results self [] suites (log Console.Reporting st2).2
       = (Ok results, st3) →
       results ≠ [] →
       ∀ e,
         (∀ submission,
            http_post w url (EirTestsConfig.apiKey (TestRunner.config self)) submission
            = PostNetworkError e)
         ∨ (∃ status body,
              e = "Failed to submit results: " ++ pretty status ++ " " ++ body
              ∧ ∀ submission,
                  http_post w url (EirTestsConfig.apiKey (TestRunner.config self))
                    submission
                  = PostRejected status body) →
         TestRunner.reportResults w self startTime finishTime code st2
         = (Ok tt,
            (log (Console.ReportFailed e)
               (log (Console.Collected (length results)
                       (length (List.filter TestResultSubmission.passed results))
                       (length (List.filter
                          (λ r, negb (TestResultSubmission.passed r)) results)))
                  st3).2).2)).
Proof.
  intros H Hn exitCode reported jsonResultsPath url.
  assert (∀ startTime finishTime code st2 exported,
            exportedTests st2 = Some exported →
            TestRunner.reportResults w self startTime finishTime code st2
            = match report_attempt w self exported startTime finishTime code st2 with
              | (Ok _, st3) => (Ok tt, st3)
              | (Throw e, st3) => (Ok tt, (log (Console.ReportFailed e) st3).2)
              end) as Hcatch.
  { intros startTime finishTime code st2 exported Hexp.
    unfold TestRunner.reportResults, report_attempt. rewrite bind_eq.
    unfold get_state at 1. rewrite Hexp. unfold try_catch.
    match goal with |- match ?x with _ => _ end = _ =>
      by destruct x as [[[]|e] st3] end. }
  split_and!.
  - subst reported exitCode. unfold after_execute.
    rewrite executeTests_eq. cbn zeta. cbn [snd].
    unfold before_execute in H. unfold TestRunner.run, try_catch.
    repeat step_in H. unfold mret, M_ret, ret in H. injection H as <- <-.
    repeat step_goal.
    match goal with |- context [(?n =? 0)%nat] =>
      destruct (Nat.eqb_spec n 0) as [?|_]; [done|] end.
    repeat step_goal.
    rewrite executeTests_eq. cbn zeta. unfold engine_exit_code.
    cbn [log fs testFileToCardIdMap exportedTests console fst snd].
    set (exitCode := TestRunner.exit_status _).
    rewrite bind_eq.
    match goal with |- context [TestRunner.reportResults w self ?a ?b ?c ?s] =>
      destruct (reportResults_total a b c s) as [st3 ->] end.
    rewrite bind_eq. cbn [snd].
    destruct (cleanup_total st3) as [st4 ->].
    by step_goal.
  - unfold before_execute in H.
    repeat step_in H. unfold mret, M_ret, ret in H. injection H as <- <-.
    unfold after_execute. rewrite executeTests_eq. cbn.
    match goal with E : TestRunner.writeTestFiles _ _ _ = _ |- _ =>
      apply writeTestFiles_from_exported in E as -> end.
    match goal with E : TestRunner.createTempDirectory _ _ = _ |- _ =>
      apply createTempDirectory_exported in E as -> end.
    by eexists.
  - exact Hcatch.
  - intros startTime finishTime code st2 exported Hexp Hex.
    rewrite (Hcatch _ _ _ _ _ Hexp).
    unfold report_attempt. rewrite bind_eq. cbn [log]. rewrite bind_eq.
    unfold get_state. cbn [fs]. fold jsonResultsPath. rewrite Hex. cbn [negb].
    destruct (Fs.readFileSync jsonResultsPath (fs st2)) as [jsonContent|];
      [|done].
    by intros ->.
  - intros startTime finishTime code st2 exported jsonContent playwrightResults
      suites results st3 Hexp Hread Hparse Hsuites Hcollect Hresults e Hpost.
    rewrite (Hcatch _ _ _ _ _ Hexp).
    unfold report_attempt. rewrite bind_eq. cbn [log]. rewrite bind_eq.
    unfold get_state. cbn [fs]. fold jsonResultsPath.
    assert (Fs.existsSync (fs st2) jsonResultsPath = true) as ->.
    { unfold Fs.existsSync. unfold Fs.readFileSync in Hread.
      by destruct (Fs.stat _ _). }
    cbn [negb]. rewrite Hread, Hparse, Hsuites, bind_eq.
    cbn [log snd] in Hcollect. rewrite Hcollect.
    destruct results as [|r results]; [done|]. cbn [length Nat.eqb].
    rewrite bind_eq. cbn [log]. unfold TestRunner.submit. fold url.
    destruct Hpost as [Hpost|(status & body & -> & Hpost)]; by rewrite Hpost.
Qed.

End Run.

(** ** C2.  For every world, every configuration, every construction time
    and every state [run] is started in: [run] ends without error, the
    workspace directory does not exist afterwards, and a further [cleanup]
    changes nothing and raises no error.  The world decides which path [run]
    takes: a missing key, a failed fetch, a failed write, no test with code,
    any exit code of the engine, any outcome of the report. *)
Theorem C2_workspace_removed_on_every_path w cfg now st :
  ∃ code st',
    TestRunner.run w (TestRunner.new cfg now) st = (Ok code, st')
    ∧ Fs.existsSync (fs st') (TestRunner.tempDir (TestRunner.new cfg now)) = false
    ∧ TestRunner.cleanup (TestRunner.new cfg now) st' = (Ok tt, st').
Proof.
  set (self := TestRunner.new cfg now).
  assert (TestRunner.tempDir self ≠ "/") as Hroot by done.
  destruct (run_total w self st) as (code & st' & Hrun).
  exists code, st'. split_and!; [done|by apply (run_gone w self code st)|].
  apply cleanup_noop. by apply (run_gone w self code st).
Qed.

Section RunExamples.
Import Scenario.

(** The paths [run] takes in the scenario: the engine fails, the key is
    missing, the fetch fails, no test has code. *)
Lemma run_scenarios :
  (TestRunner.run world runner boot).1 = Ok 3%Z
  ∧ (TestRunner.run world
       (TestRunner.new (EirTestsConfig.mk "https://api.eirtests.example" "" "site-1")
          1761535321504) boot).1 = Ok 1%Z
  ∧ (TestRunner.run
       {| process_env := process_env world; process_cwd := process_cwd world;
          script_dirname := script_dirname world;
          clock_start := clock_start world; clock_finish := clock_finish world;
          http_get := λ _ _, FetchRejected 401 "Unauthorized" "";
          http_post := http_post world; execSync := execSync world;
          JSON_parse := JSON_parse world |} runner boot).1 = Ok 1%Z
  ∧ (TestRunner.run
       {| process_env := process_env world; process_cwd := process_cwd world;
          script_dirname := script_dirname world;
          clock_start := clock_start world; clock_finish := clock_finish world;
          http_get := λ _ _, FetchOk (ExportedTests.mk "site-1" "Shop" "org-1" 1 [draft]);
          http_post := http_post world; execSync := execSync world;
          JSON_parse := JSON_parse world |} runner boot).1 = Ok 0%Z.
Proof. by vm_compute. Qed.

(** The engine exits with 3 and the submission fails on the network:
    [run] returns 3 and the failure is printed as a warning. *)
Lemma C7_exit_code_is_engine_exit_code_witness :
  (TestRunner.run world runner boot).1 = Ok 3%Z
  ∧ take 5 (console (TestRunner.run world runner boot).2)
    = [Console.SomeFailed 3; Console.CleaningUp; Console.ReportFailed "ECONNRESET";
       Console.Collected 1 0 1; Console.Reporting].
Proof.
  rewrite (proj1 (C7_exit_code_is_engine_exit_code world runner 2 boot
                    (before_execute world runner boot).2
                    (run_eta _ _ eq_refl) (Nat.neq_succ_0 1))).
  by vm_compute.
Defined.

End RunExamples.

(** * Further properties of the code *)

(** ** The secrets provider *)

Section SecretsProvider.
Implicit Types env : gmap string string.

Lemma startsWith_app pre r : Js.startsWith (pre ++ r) pre = true.
Proof. unfold Js.startsWith. by rewrite strip_prefix_app. Qed.

Lemma truthy_true s : Js.truthy s = true ↔ s ≠ "".
Proof.
  unfold Js.truthy. destruct (String.eqb_spec s ""); simpl; naive_solver.
Qed.

(** ** X2.  A variable is in the bundle for Playwright exactly when the
    environment sets it to a non-empty value and its name starts with
    [TEST_] or is [BASE_URL]; the bundle holds the value of the
    environment. *)
Theorem X2_bundle_membership env k v :
  EnvSecretsProvider.getSecretsForPlaywright env !! k = Some v
  ↔ env !! k = Some v ∧ v ≠ ""
    ∧ (Js.startsWith k "TEST_" = true ∨ k = "BASE_URL").
Proof.
  rewrite getSecretsForPlaywright_lookup.
  destruct (env !! k) as [u|]; [|by split; [|intros [? _]]].
  destruct (Js.startsWith k "TEST_") eqn:Hp; simpl.
  - destruct (Js.truthy u) eqn:Hu.
    + apply truthy_true in Hu. split; [intros [= ->]|intros ([= ->] & _)]; auto.
    + apply not_true_iff_false in Hu. rewrite truthy_true in Hu.
      split; [done|]. intros ([= ->] & ? & _). by destruct Hu.
  - destruct (String.eqb_spec k "BASE_URL") as [->|Hk]; simpl.
    + destruct (Js.truthy u) eqn:Hu.
      * apply truthy_true in Hu. split; [intros [= ->]|intros ([= ->] & _)]; auto.
      * apply not_true_iff_false in Hu. rewrite truthy_true in Hu.
        split; [done|]. intros ([= ->] & ? & _). by destruct Hu.
    + split; [done|]. by intros (_ & _ & [|]).
Qed.

(** ** X3.  Assembling the bundle from a bundle gives that bundle again:
    a process started with just the secrets would pass on all of them. *)
Theorem X3_bundle_idempotent env :
  EnvSecretsProvider.getSecretsForPlaywright
    (EnvSecretsProvider.getSecretsForPlaywright env)
  = EnvSecretsProvider.getSecretsForPlaywright env.
Proof.
  apply map_eq. intros k.
  rewrite (getSecretsForPlaywright_lookup (EnvSecretsProvider.getSecretsForPlaywright env)).
  rewrite getSecretsForPlaywright_lookup.
  destruct (env !! k) as [v|]; [|done].
  by destruct (_ && _) eqn:E; [rewrite E|].
Qed.

End SecretsProvider.

(** ** The client *)

Section Client.

Lemma drop_while_split p (l : list ascii) :
  ∃ t, l = (t ++ Path.drop_while p l)%list ∧ forallb p t = true.
Proof.
  induction l as [|c l (t & Hl & Ht)]; [by exists []|]. simpl.
  destruct (p c) eqn:Hc.
  - exists (c :: t). simpl. rewrite Hc, Ht. by rewrite Hl at 1.
  - by exists [].
Qed.

Lemma drop_while_head p (l : list ascii) c l' :
  Path.drop_while p l = c :: l' → p c = false.
Proof.
  induction l as [|x l IH]; simpl; [done|].
  destruct (p x) eqn:Hx; [done|]. by intros [= <- <-].
Qed.

Lemma drop_while_fixed p (l : list ascii) :
  Path.drop_while p (Path.drop_while p l) = Path.drop_while p l.
Proof.
  destruct (Path.drop_while p l) as [|c l'] eqn:E; [done|].
  apply drop_while_head in E. simpl. by rewrite E.
Qed.

Lemma rev_app_spec (a b : string) :
  String.rev_app a b
  = string_of_list_ascii (List.rev (list_ascii_of_string a)) ++ b.
Proof.
  revert b. induction a as [|c a IH]; intros b; simpl; [done|].
  rewrite IH. clear IH.
  induction (List.rev (list_ascii_of_string a)) as [|x l IHl]; simpl; [done|].
  rewrite !app_String. by rewrite IHl.
Qed.

Lemma string_app_empty_r (a : string) : a ++ "" = a.
Proof. induction a as [|x a IH]; [done|]. by rewrite app_String, IH. Qed.

Lemma rev_of_list (l : list ascii) :
  String.rev (string_of_list_ascii l) = string_of_list_ascii (List.rev l).
Proof.
  unfold String.rev. rewrite rev_app_spec, string_app_empty_r.
  by rewrite list_ascii_of_string_of_list_ascii.
Qed.

Lemma all_chars_of_list p (l : list ascii) :
  Js.all_chars p (string_of_list_ascii l) = forallb p l.
Proof. induction l as [|c l IH]; simpl; [done|]. by rewrite IH. Qed.

Lemma string_of_list_app (l1 l2 : list ascii) :
  string_of_list_ascii (l1 ++ l2)%list
  = string_of_list_ascii l1 ++ string_of_list_ascii l2.
Proof.
  induction l1 as [|c l1 IH]; simpl; [done|]. by rewrite app_String, IH.
Qed.

(** ** X4.  The address the client keeps is the configured address without
    its trailing slashes: what is cut off consists of slashes only, what is
    kept does not end in a slash, and an address without trailing slash is
    kept as it is. *)
Theorem X4_trailing_slashes_removed url :
  (∃ slashes, url = EirTestsClient.strip_trailing_slashes url ++ slashes
              ∧ Js.all_chars Path.is_slash slashes = true)
  ∧ Path.ends_with_slash (EirTestsClient.strip_trailing_slashes url) = false
  ∧ (Path.ends_with_slash url = false →
     EirTestsClient.strip_trailing_slashes url = url).
Proof.
  rewrite <-(string_of_list_ascii_of_string url).
  generalize (list_ascii_of_string url) as l. intros l.
  unfold EirTestsClient.strip_trailing_slashes, Path.ends_with_slash.
  rewrite list_ascii_of_string_of_list_ascii, !rev_of_list, rev_involutive.
  destruct (drop_while_split Path.is_slash (List.rev l)) as (t & Hl & Ht).
  split_and!.
  - exists (string_of_list_ascii (List.rev t)).
    rewrite <-string_of_list_app, <-rev_app_distr, <-Hl, rev_involutive.
    split; [done|]. rewrite all_chars_of_list, forallb_forall.
    intros c Hc%in_rev. rewrite forallb_forall in Ht. by apply Ht.
  - destruct (Path.drop_while _ _) as [|c l'] eqn:E; [done|].
    apply drop_while_head in E. unfold Path.is_slash in E. simpl. by rewrite E.
  - intros Hc. f_equal. rewrite <-(rev_involutive l) at 2. f_equal.
    destruct (List.rev l) as [|c l']; simpl in *; [done|].
    unfold Path.is_slash. by rewrite Hc.
Qed.

(** ** X5.  [getTests] either returns the data the remote source answered
    with, or throws an error whose message starts with [Failed to connect
    to EirTests API: ], whatever went wrong; it leaves the disk, the map and
    the fetched tests of the runner as they were. *)
Theorem X5_getTests_outcomes w cfg st :
  let out := EirTestsClient.getTests w cfg (EirTestsConfig.siteId cfg) st in
  same_store st out.2
  ∧ match out.1 with
    | Ok data =>
        http_get w (export_url cfg) (EirTestsConfig.apiKey cfg) = FetchOk data
    | Throw message =>
        Js.startsWith message "Failed to connect to EirTests API: " = true
        ∧ ∀ data,
            http_get w (export_url cfg) (EirTestsConfig.apiKey cfg) ≠ FetchOk data
    end.
Proof.
  unfold EirTestsClient.getTests. fold (export_url cfg). cbn zeta.
  rewrite bind_eq. cbn [log].
  destruct (http_get w (export_url cfg) (EirTestsConfig.apiKey cfg))
    as [e|status statusText body|e|data]; cbn; by repeat split.
Qed.

End Client.

(** ** The workspace of a runner *)

Section Workspace.

Lemma all_chars_app p (a b : string) :
  Js.all_chars p (a ++ b) = Js.all_chars p a && Js.all_chars p b.
Proof.
  induction a as [|c a IH]; [done|]. rewrite app_String. simpl.
  by rewrite IH, andb_assoc.
Qed.

Lemma pretty_N_char_digit x : Js.is_digit (pretty_N_char x) = true.
Proof. unfold pretty_N_char. by repeat case_match. Qed.

Lemma pretty_N_go_digits x s :
  Js.all_chars Js.is_digit s = true →
  Js.all_chars Js.is_digit (pretty_N_go x s) = true.
Proof.
  revert s. induction (N.lt_wf_0 x) as [x _ IH]; intros s Hs.
  destruct (decide (0 < x)%N) as [Hx|Hx].
  - rewrite pretty_N_go_step by done. apply IH.
    + by apply N.div_lt.
    + simpl. by rewrite pretty_N_char_digit.
  - assert (x = 0%N) as -> by lia. by rewrite pretty_N_go_0.
Qed.

(** The decimal numeral of a number consists of digits. *)
Lemma pretty_N_digits (n : N) : Js.all_chars Js.is_digit (pretty n) = true.
Proof.
  unfold pretty, pretty_N. case_decide; [done|]. by apply pretty_N_go_digits.
Qed.

(** Digits followed by a slash: the digits are determined. *)
Lemma digits_slash_inj (d1 d2 r1 r2 : string) :
  Js.all_chars Js.is_digit d1 = true → Js.all_chars Js.is_digit d2 = true →
  d1 ++ String "/" r1 = d2 ++ String "/" r2 → d1 = d2.
Proof.
  revert d2. induction d1 as [|c d1 IH]; intros [|c' d2]; simpl; try done.
  - intros _ Hd. rewrite app_String. intros [= <- _].
    by apply andb_true_iff in Hd as [? _].
  - intros Hd _. rewrite app_String. intros [= -> _].
    by apply andb_true_iff in Hd as [? _].
  - intros [_ H1]%andb_true_iff [_ H2]%andb_true_iff.
    rewrite !app_String. intros [= -> E]. f_equal. by apply (IH d2).
Qed.

Lemma strip_prefix_Some pre s r : Js.strip_prefix pre s = Some r → s = pre ++ r.
Proof.
  revert s. induction pre as [|a pre IH]; intros s; simpl.
  - by intros [= ->].
  - destruct s as [|b s]; [done|].
    destruct (Ascii.eqb_spec a b) as [->|]; [|done].
    intros H. by rewrite (IH _ H).
Qed.

Lemma string_app_assoc (a b c : string) : (a ++ b) ++ c = a ++ (b ++ c).
Proof. induction a as [|x a IH]; [done|]. by rewrite !app_String, IH. Qed.

Lemma within_inv p q :
  Fs.within p q = true → q = p ∨ ∃ r, q = p ++ String "/" r.
Proof.
  unfold Fs.within. intros [H|H]%orb_true_iff.
  - left. by apply String.eqb_eq.
  - right. unfold Js.startsWith in H.
    destruct (Js.strip_prefix _ _) as [r|] eqn:E; [|done].
    apply strip_prefix_Some in E. exists r.
    by rewrite E, string_app_assoc.
Qed.

(** Two workspaces that share a path are the same workspace. *)
Lemma workspaces_disjoint cfg1 cfg2 (now1 now2 : N) q :
  Fs.within (TestRunner.tempDir (TestRunner.new cfg1 now1)) q = true →
  Fs.within (TestRunner.tempDir (TestRunner.new cfg2 now2)) q = true →
  now1 = now2.
Proof.
  intros H1%within_inv H2%within_inv. cbn [TestRunner.new TestRunner.tempDir] in *.
  pose proof (pretty_N_digits now1) as D1.
  pose proof (pretty_N_digits now2) as D2.
  assert (∀ (a b r : string),
            Js.all_chars Js.is_digit a = true → Js.all_chars Js.is_digit b = true →
            a = b ++ String "/" r → False) as Hno.
  { intros a b r Ha Hb ->. rewrite all_chars_app in Ha.
    apply andb_true_iff in Ha as [_ Ha]. simpl in Ha. done. }
  destruct H1 as [->|[r1 ->]], H2 as [E|[r2 E]].
  - apply (inj (String.app "/tmp/eirtests-")) in E. by apply (inj pretty) in E.
  - rewrite string_app_assoc in E. apply (inj (String.app "/tmp/eirtests-")) in E.
    by destruct (Hno _ _ _ D1 D2 E).
  - rewrite string_app_assoc in E.
    apply (inj (String.app "/tmp/eirtests-")) in E. symmetry in E.
    by destruct (Hno _ _ _ D2 D1 E).
  - rewrite !string_app_assoc in E.
    apply (inj (String.app "/tmp/eirtests-")) in E.
    apply digits_slash_inj in E; [|done..]. by apply (inj pretty) in E.
Qed.

(** ** X6.  Runners constructed at different times have different
    workspaces, and neither workspace lies inside the other. *)
Theorem X6_workspaces_of_two_runs cfg1 cfg2 (now1 now2 : N) :
  now1 ≠ now2 →
  TestRunner.tempDir (TestRunner.new cfg1 now1)
  ≠ TestRunner.tempDir (TestRunner.new cfg2 now2)
  ∧ ∀ q, Fs.within (TestRunner.tempDir (TestRunner.new cfg1 now1)) q = true →
      Fs.within (TestRunner.tempDir (TestRunner.new cfg2 now2)) q = false.
Proof.
  intros Hne. split.
  - intros E. apply Hne.
    apply (workspaces_disjoint cfg1 cfg2 now1 now2
             (TestRunner.tempDir (TestRunner.new cfg1 now1))).
    + apply within_refl.
    + rewrite E. apply within_refl.
  - intros q H1. apply not_true_is_false. intros H2.
    by apply Hne, (workspaces_disjoint cfg1 cfg2 now1 now2 q).
Qed.

Lemma X6_workspaces_of_two_runs_witness :
  Fs.within
    (TestRunner.tempDir (TestRunner.new Scenario.config 1761535321504))
    "/tmp/eirtests-1761535321504/tests/smoke/login.spec.ts" = true
  ∧ Fs.within
      (TestRunner.tempDir (TestRunner.new Scenario.config 1761535321505))
      "/tmp/eirtests-1761535321504/tests/smoke/login.spec.ts" = false.
Proof.
  split; [by vm_compute|].
  apply (X6_workspaces_of_two_runs Scenario.config Scenario.config
           1761535321504 1761535321505); [done|by vm_compute].
Defined.

End Workspace.

(** ** Creating the workspace *)

Section CreateTempDirectory.

Lemma all_chars_impl (p p' : ascii → bool) s :
  (∀ c, p c = true → p' c = true) →
  Js.all_chars p s = true → Js.all_chars p' s = true.
Proof.
  intros Hp. induction s as [|c s IH]; simpl; [done|].
  intros [? ?]%andb_true_iff. apply andb_true_iff. auto.
Qed.

Lemma digit_not_slash c : Js.is_digit c = true → negb (Path.is_slash c) = true.
Proof.
  unfold Path.is_slash. destruct (Ascii.eqb_spec c Path.slash) as [->|]; done.
Qed.

Lemma split_go_no_slash cur d :
  Js.all_chars (λ c, negb (Path.is_slash c)) d = true →
  Path.split_go cur d = [String.rev_app cur d].
Proof.
  revert cur. induction d as [|c d IH]; intros cur; simpl.
  - by intros _.
  - unfold Path.is_slash at 1. intros [Hc Hd]%andb_true_iff.
    apply negb_true_iff in Hc. rewrite Hc. by rewrite IH.
Qed.

(** The directories above and including the workspace. *)
Lemma ancestors_tempDir cfg now :
  Fs.ancestors (TestRunner.tempDir (TestRunner.new cfg now))
  = ["/tmp"; TestRunner.tempDir (TestRunner.new cfg now)].
Proof.
  cbn [TestRunner.new TestRunner.tempDir].
  pose proof (pretty_N_digits now) as Hd.
  apply (all_chars_impl _ (λ c, negb (Path.is_slash c)) _ digit_not_slash) in Hd.
  unfold Fs.ancestors, Path.split.
  change ("/tmp/eirtests-" ++ pretty now)
    with (String "/" (String "t" (String "m" (String "p" (String "/"
          (String "e" (String "i" (String "r" (String "t" (String "e"
          (String "s" (String "t" (String "s" (String "-" (pretty now))))))))))))))).
  cbn [Path.split_go Ascii.eqb Bool.eqb Path.slash String.rev String.rev_app].
  rewrite split_go_no_slash by done. done.
Qed.

Lemma tempDir_not_root cfg now : TestRunner.tempDir (TestRunner.new cfg now) ≠ "/".
Proof. done. Qed.

Lemma tempDir_not_tmp cfg now : TestRunner.tempDir (TestRunner.new cfg now) ≠ "/tmp".
Proof. done. Qed.

(** ** X7.  When the workspace does not exist and [/tmp] is a regular
    file, [createTempDirectory] throws and leaves the state as it was.  When
    it succeeds the workspace exists afterwards, it is a directory if it did
    not exist before, and everything that was on the disk is still there. *)
Theorem X7_createTempDirectory_outcomes cfg now st :
  let self := TestRunner.new cfg now in
  let out := TestRunner.createTempDirectory self st in
  (fs st !! TestRunner.tempDir self = None →
   (∃ content, fs st !! "/tmp" = Some (Fs.File content)) →
   (∃ e, out.1 = Throw e) ∧ out.2 = st)
  ∧ (out.1 = Ok tt →
     Fs.existsSync (fs out.2) (TestRunner.tempDir self) = true
     ∧ (fs st !! TestRunner.tempDir self = None →
        fs out.2 !! TestRunner.tempDir self = Some Fs.Dir)
     ∧ ∀ q x, fs st !! q = Some x → fs out.2 !! q = Some x).
Proof.
  intros self out. subst out.
  unfold TestRunner.createTempDirectory. rewrite bind_eq. unfold get_state.
  unfold Fs.existsSync, Fs.stat.
  destruct (String.eqb_spec (TestRunner.tempDir self) "/") as [E|_];
    [by destruct (tempDir_not_root cfg now)|].
  destruct (fs st !! TestRunner.tempDir self) as [x|] eqn:Hws;
    cbn [negb]; unfold mret, M_ret, ret, fs_call.
  { cbn [fst snd fs]. rewrite Hws. by split. }
  unfold Fs.mkdirSync. subst self. rewrite ancestors_tempDir.
  set (self := TestRunner.new cfg now) in *.
  cbn [Fs.mkdir_chain].
  destruct (fs st !! "/tmp") as [[|content]|] eqn:Htmp.
  - rewrite Hws. cbn [set_fs fst snd fs]. rewrite lookup_insert_eq. split.
    + by intros _ [? ?].
    + intros _. split_and!; [done|done|].
      intros q x Hq. rewrite lookup_insert_ne; [done|]. intros <-. congruence.
  - cbn [fst snd]. split; [|done]. intros _ _. split; [by eexists|done].
  - rewrite lookup_insert_ne by (symmetry; apply tempDir_not_tmp).
    rewrite Hws. cbn [set_fs fst snd fs]. rewrite lookup_insert_eq. split.
    + by intros _ [? ?].
    + intros _. split_and!; [done|done|].
      intros q x Hq.
      rewrite !lookup_insert_ne; [done|intros <-; congruence..].
Qed.

End CreateTempDirectory.

(** ** More on materialization *)

Section MaterializeMore.
Context (self : TestRunner.t).

(** What one pass of the loop body does, whether it ends well or not. *)
Lemma write_test_any test code st r st' :
  TestRunner.write_test self test code st = (r, st') →
  (∀ q x, q ≠ target self test → fs st !! q = Some x → fs st' !! q = Some x)
  ∧ match r with
    | Ok _ =>
        fs st' !! target self test = Some (Fs.File (TestRunner.clean_code code))
        ∧ testFileToCardIdMap st'
          = <[target self test := ExportedTest.id test]> (testFileToCardIdMap st)
    | Throw _ =>
        testFileToCardIdMap st' = testFileToCardIdMap st
        ∧ ∀ x, fs st !! target self test = Some x →
               fs st' !! target self test = Some x
    end.
Proof.
  unfold TestRunner.write_test, target.
  set (fullPath := Path.join _ _). set (dir := Path.dirname _).
  unfold mbind, M_bind, bind, get_state, fs_call, mret, M_ret, ret.
  destruct (negb _).
  - destruct (Fs.mkdirSync dir (fs st)) as [f1|] eqn:Hmk;
      [|by intros [= <- <-]].
    cbn [set_fs fs].
    destruct (Fs.writeFileSync fullPath _ f1) as [f2|] eqn:Hw.
    + apply writeFileSync_Some in Hw as ->.
      intros [= <- <-]. cbn. split_and!; [|apply lookup_insert_eq|done].
      intros q x Hq Hx. rewrite lookup_insert_ne by done.
      by apply (mkdir_chain_keeps _ _ _ _ _ Hmk).
    + intros [= <- <-]. cbn. split_and!; [|done|];
        intros; by apply (mkdir_chain_keeps _ _ _ _ _ Hmk).
  - destruct (Fs.writeFileSync fullPath _ (fs st)) as [f2|] eqn:Hw.
    + apply writeFileSync_Some in Hw as ->.
      intros [= <- <-]. cbn. split_and!; [|apply lookup_insert_eq|done].
      intros q x Hq Hx. by rewrite lookup_insert_ne.
    + by intros [= <- <-].
Qed.

Lemma log_store l st : same_store st (log l st).2.
Proof. done. Qed.

(** ** X8.  Whether materialization ends well or throws on the way, a
    path that is not the target of a definition with code keeps what it
    held: its file or directory is still there and its entry of the map is
    unchanged. *)
Theorem X8_materialization_keeps_other_paths tests st q :
  (∀ test, test ∈ tests → EirTestsClient.has_code test = true →
     target self test ≠ q) →
  let out := TestRunner.writeTestFiles self tests st in
  (∀ x, fs st !! q = Some x → fs out.2 !! q = Some x)
  ∧ testFileToCardIdMap out.2 !! q = testFileToCardIdMap st !! q.
Proof.
  unfold TestRunner.writeTestFiles. generalize 0 as written.
  revert st. induction tests as [|test tests IH]; intros st written Hother; [done|].
  assert (∀ test', test' ∈ tests → EirTestsClient.has_code test' = true →
            target self test' ≠ q) as Hother'
    by (intros ???; apply Hother; [apply elem_of_cons; by right|done]).
  destruct (EirTestsClient.has_code test) eqn:Hc.
  - destruct (has_code_Some _ Hc) as (code & Hcode & Htruthy).
    rewrite (writeTestFiles_from_write _ _ _ code) by done.
    assert (q ≠ target self test) as Hq
      by (intros ->; apply (Hother test); [apply elem_of_cons; by left|done..]).
    destruct (TestRunner.write_test self test code st) as [[[]|e] st1] eqn:Hw;
      apply write_test_any in Hw as [Hkeep Hr].
    + destruct Hr as [_ Hmap].
      destruct (IH st1 (S written) Hother') as [Hfs Hcards]. split.
      * intros x Hx. apply Hfs. by apply Hkeep.
      * rewrite Hcards, Hmap. by rewrite lookup_insert_ne.
    + destruct Hr as [Hmap _]. cbn. split; [by auto|by rewrite Hmap].
  - rewrite writeTestFiles_from_skip by done.
    exact (IH (log (Console.Skipping (ExportedTest.title test)) st).2
             written Hother').
Qed.

(** ** X9.  Materialization keeps this invariant, also when it throws:
    every path that has an entry in the map holds a regular file. *)
Theorem X9_entries_have_files tests st :
  (∀ q id, testFileToCardIdMap st !! q = Some id →
     ∃ content, fs st !! q = Some (Fs.File content)) →
  let out := TestRunner.writeTestFiles self tests st in
  ∀ q id, testFileToCardIdMap out.2 !! q = Some id →
    ∃ content, fs out.2 !! q = Some (Fs.File content).
Proof.
  unfold TestRunner.writeTestFiles. generalize 0 as written.
  revert st. induction tests as [|test tests IH]; intros st written Hinv; [done|].
  destruct (EirTestsClient.has_code test) eqn:Hc.
  - destruct (has_code_Some _ Hc) as (code & Hcode & Htruthy).
    rewrite (writeTestFiles_from_write _ _ _ code) by done.
    destruct (TestRunner.write_test self test code st) as [[[]|e] st1] eqn:Hw;
      apply write_test_any in Hw as [Hkeep Hr].
    + destruct Hr as [Hfile Hmap]. apply IH. intros q id.
      rewrite Hmap. destruct (decide (q = target self test)) as [->|Hq].
      * eauto.
      * rewrite lookup_insert_ne by done. intros [c Hq']%Hinv. eauto.
    + destruct Hr as [Hmap Hsame]. cbn. intros q id. rewrite Hmap.
      intros [c Hq]%Hinv. exists c.
      destruct (decide (q = target self test)) as [->|?]; auto.
  - rewrite writeTestFiles_from_skip by done.
    exact (IH (log (Console.Skipping (ExportedTest.title test)) st).2
             written Hinv).
Qed.

(** ** X10.  Every entry of the map after materialization was there
    before or was recorded for a definition of the batch that has code:
    the path is its target and the value its id. *)
Theorem X10_entries_come_from_definitions tests st q id :
  let out := TestRunner.writeTestFiles self tests st in
  testFileToCardIdMap out.2 !! q = Some id →
  testFileToCardIdMap st !! q = Some id
  ∨ ∃ test, test ∈ tests ∧ EirTestsClient.has_code test = true
            ∧ target self test = q ∧ ExportedTest.id test = id.
Proof.
  unfold TestRunner.writeTestFiles. generalize 0 as written.
  revert st. induction tests as [|test tests IH]; intros st written; [by left|].
  destruct (EirTestsClient.has_code test) eqn:Hc.
  - destruct (has_code_Some _ Hc) as (code & Hcode & Htruthy).
    rewrite (writeTestFiles_from_write _ _ _ code) by done.
    destruct (TestRunner.write_test self test code st) as [[[]|e] st1] eqn:Hw;
      apply write_test_any in Hw as [Hkeep Hr].
    + destruct Hr as [_ Hmap]. intros Hout.
      destruct (IH st1 (S written) Hout) as [Hq|(test' & ? & ? & ? & ?)].
      * rewrite Hmap in Hq.
        destruct (decide (target self test = q)) as [<-|Hne].
        -- rewrite lookup_insert_eq in Hq. injection Hq as <-.
           right. exists test. split_and!; [apply elem_of_cons; by left|done..].
        -- rewrite lookup_insert_ne in Hq by done. by left.
      * right. exists test'. split_and!; [apply elem_of_cons; by right|done..].
    + destruct Hr as [Hmap _]. cbn. rewrite Hmap. by left.
  - rewrite writeTestFiles_from_skip by done. intros Hout.
    destruct (IH (log (Console.Skipping (ExportedTest.title test)) st).2
                written Hout) as [Hq|(test' & ? & ? & ? & ?)]; [by left|].
    right. exists test'. split_and!; [apply elem_of_cons; by right|done..].
Qed.

Lemma writeTestFiles_from_none written tests st :
  (∀ test, test ∈ tests → EirTestsClient.has_code test = false) →
  let out := TestRunner.writeTestFiles_from self written tests st in
  out.1 = Ok written
  ∧ same_store st out.2
  ∧ console out.2 = (List.rev (skipping_lines tests) ++ console st)%list.
Proof.
  revert st. induction tests as [|test tests IH]; intros st Hnone; [done|].
  rewrite writeTestFiles_from_skip
    by (apply Hnone, elem_of_cons; by left).
  destruct (IH (log (Console.Skipping (ExportedTest.title test)) st).2)
    as (Hr & Hstore & Hconsole).
  { intros test' Hin. apply Hnone, elem_of_cons. by right. }
  split_and!; [done|done|].
  rewrite Hconsole. cbn. by rewrite <-app_assoc.
Qed.

(** ** X11.  A batch in which no definition has code is materialized
    without touching the disk or the map: the call returns 0 and prints one
    line per definition, in the order of the batch. *)
Theorem X11_nothing_to_write tests st :
  (∀ test, test ∈ tests → EirTestsClient.has_code test = false) →
  let out := TestRunner.writeTestFiles self tests st in
  out.1 = Ok 0
  ∧ same_store st out.2
  ∧ console out.2 = (List.rev (skipping_lines tests) ++ console st)%list.
Proof. apply writeTestFiles_from_none. Qed.

End MaterializeMore.

(** ** The clean-up of fences, once more *)

Section CleanCodeMore.

Lemma replace_head_suffix lit s : ∃ a, s = a ++ Js.replace_head lit s.
Proof.
  unfold Js.replace_head. destruct (Js.strip_prefix lit s) as [r|] eqn:E.
  - exists lit. by apply strip_prefix_Some.
  - by exists "".
Qed.

Lemma replace_tail_prefix lit s : ∃ b, s = Js.replace_tail lit s ++ b.
Proof.
  induction s as [|c s [b Hb]]; rewrite replace_tail_eq.
  - destruct (String.eqb_spec "" lit); by exists "".
  - destruct (String.eqb_spec (String c s) lit) as [_|_].
    + by exists (String c s).
    + exists b. rewrite app_String. by rewrite <-Hb.
Qed.

(** ** X12.  The clean-up only cuts text off the two ends of the code: the
    text written to the file is a contiguous part of the code that was
    fetched, nothing is inserted or changed in between. *)
Theorem X12_clean_code_cuts_the_ends code :
  ∃ head tail, code = head ++ TestRunner.clean_code code ++ tail.
Proof.
  unfold TestRunner.clean_code. destruct (Js.startsWith code "```").
  - destruct (replace_head_suffix ("```typescript" ++ Js.nl) code) as [a Ha].
    destruct (replace_head_suffix ("```" ++ Js.nl)
                (Js.replace_head ("```typescript" ++ Js.nl) code)) as [b Hb].
    destruct (replace_tail_prefix (Js.nl ++ "```")
                (Js.replace_head ("```" ++ Js.nl)
                   (Js.replace_head ("```typescript" ++ Js.nl) code)))
      as [c Hc].
    exists (a ++ b), c. rewrite string_app_assoc.
    by rewrite <-Hc, <-Hb.
  - exists "", "". by rewrite string_app_empty_r.
Qed.

End CleanCodeMore.

(** ** Execution and clean-up *)

Section ExecuteAndCleanup.
Context (w : World) (self : TestRunner.t).

Lemma exit_status_zero outcome :
  TestRunner.exit_status outcome = 0%Z ↔ outcome = ExecReturned.
Proof.
  destruct outcome as [|[status|]]; simpl; [done| |done].
  destruct (Z.eqb_spec status 0); split; (done || lia).
Qed.

(** ** X13.  [executeTests] never throws.  It returns 0 exactly when the
    engine process ended without error: an error without exit status, or
    with status 0, gives 1.  It leaves the map, the fetched tests and the
    console as they were. *)
Theorem X13_executeTests_exit_code secrets st :
  let engine :=
    execSync w ("npx playwright test " ++ TestRunner.tempDir self)
      (TestRunner.child_env (process_env w) secrets
         (Path.join (script_dirname w) "../node_modules"))
      (process_cwd w) (fs st) in
  let out := TestRunner.executeTests w self secrets st in
  out.1 = Ok (TestRunner.exit_status engine.2)
  ∧ (out.1 = Ok 0%Z ↔ engine.2 = ExecReturned)
  ∧ (∀ status, engine.2 = ExecThrew status → ∃ code, out.1 = Ok code ∧ code ≠ 0%Z)
  ∧ fs out.2 = engine.1
  ∧ testFileToCardIdMap out.2 = testFileToCardIdMap st
  ∧ exportedTests out.2 = exportedTests st
  ∧ console out.2 = console st.
Proof.
  intros engine out. subst out. rewrite executeTests_eq. cbn zeta. fold engine.
  cbn [fst snd fs testFileToCardIdMap exportedTests console].
  split_and!; try done.
  - rewrite <-exit_status_zero. split; [by intros [= ->]|by intros ->].
  - intros status Hs. eexists. split; [done|].
    rewrite exit_status_zero, Hs. done.
Qed.

Lemma cleanup_eq st :
  TestRunner.cleanup self st =
    (Ok tt,
     if Fs.existsSync (fs st) (TestRunner.tempDir self) then
       {| fs := Fs.rmSync (TestRunner.tempDir self) (fs st);
          testFileToCardIdMap := testFileToCardIdMap st;
          exportedTests := exportedTests st;
          console := Console.CleaningUp :: console st |}
     else st).
Proof.
  unfold TestRunner.cleanup. rewrite bind_eq. unfold get_state.
  by destruct (Fs.existsSync _ _).
Qed.

Lemma cleanup_fs st :
  fs (TestRunner.cleanup self st).2 = cleaned self (fs st).
Proof.
  rewrite cleanup_eq. unfold cleaned. by destruct (Fs.existsSync _ _).
Qed.

Lemma rmSync_lookup p f q :
  Fs.rmSync p f !! q = if Fs.within p q then None else f !! q.
Proof.
  unfold Fs.rmSync. rewrite map_lookup_filter.
  destruct (f !! q) as [x|]; simpl; [|by destruct (Fs.within p q)].
  case_guard as Hg; simpl in Hg; [by rewrite Hg|].
  by apply not_false_is_true in Hg as ->.
Qed.

(** ** X14.  [cleanup] removes the workspace with everything below it and
    nothing else: a path outside the workspace holds afterwards what it
    held before, and when the workspace existed no path inside it is left.
    The map and the fetched tests are unchanged. *)
Theorem X14_cleanup_removes_only_the_workspace st q :
  let out := TestRunner.cleanup self st in
  out.1 = Ok tt
  ∧ (Fs.within (TestRunner.tempDir self) q = false →
     fs out.2 !! q = fs st !! q)
  ∧ (Fs.existsSync (fs st) (TestRunner.tempDir self) = true →
     Fs.within (TestRunner.tempDir self) q = true → fs out.2 !! q = None)
  ∧ testFileToCardIdMap out.2 = testFileToCardIdMap st
  ∧ exportedTests out.2 = exportedTests st.
Proof.
  intros out. subst out. rewrite cleanup_eq. cbn [fst snd].
  destruct (Fs.existsSync _ _); cbn [fs testFileToCardIdMap exportedTests];
    split_and!; try done.
  - intros Hq. by rewrite rmSync_lookup, Hq.
  - intros _ Hq. by rewrite rmSync_lookup, Hq.
Qed.

End ExecuteAndCleanup.

Section Isolation.

(** ** X15.  The clean-up of one runner leaves the workspace of a runner
    constructed at another time alone: every path in that other workspace
    holds afterwards what it held before. *)
Theorem X15_cleanup_spares_other_runs cfg1 cfg2 (now1 now2 : N) st q :
  now1 ≠ now2 →
  Fs.within (TestRunner.tempDir (TestRunner.new cfg2 now2)) q = true →
  fs (TestRunner.cleanup (TestRunner.new cfg1 now1) st).2 !! q = fs st !! q.
Proof.
  intros Hne Hq. rewrite cleanup_eq.
  destruct (Fs.existsSync _ _); [|done]. cbn [snd fs].
  rewrite rmSync_lookup.
  destruct (Fs.within (TestRunner.tempDir (TestRunner.new cfg1 now1)) q) eqn:H1;
    [|done].
  by destruct Hne, (workspaces_disjoint cfg1 cfg2 now1 now2 q).
Qed.

End Isolation.

(** ** Correlation, once more *)

Section CorrelateMore.
Context (self : TestRunner.t).

Lemma skip_digits_split s :
  ∃ digits, s = digits ++ Js.skip_digits s
            ∧ Js.all_chars Js.is_digit digits = true.
Proof.
  induction s as [|c s (digits & Hs & Hd)]; [by exists ""|]. simpl.
  destruct (Js.is_digit c) eqn:Hc.
  - exists (String c digits). rewrite app_String. simpl. rewrite Hc, Hd.
    by rewrite <-Hs.
  - by exists "".
Qed.

Lemma match_tempDir_here_Some s rel :
  TestRunner.match_tempDir_here s = Some rel →
  ∃ digits, s = reported_file "" digits rel
    ∧ Js.truthy digits = true ∧ Js.all_chars Js.is_digit digits = true
    ∧ Js.truthy rel = true
    ∧ Js.no_line_terminator rel = true.
Proof.
  unfold TestRunner.match_tempDir_here.
  destruct (Js.strip_prefix "eirtests-" s) as [[|d r]|] eqn:E; [done| |done].
  apply strip_prefix_Some in E as ->.
  destruct (Js.is_digit d) eqn:Hd; [|done].
  destruct (skip_digits_split r) as (digits & Hr & Hdigits).
  destruct (Js.skip_digits r) as [|c rest]; [done|].
  destruct (Ascii.eqb_spec c "/") as [->|]; [|done]. simpl.
  destruct (Js.truthy rest) eqn:Hrest; [|done]. simpl.
  destruct (Js.no_line_terminator rest) eqn:Hline; [|done].
  intros [= <-]. exists (String d digits). unfold reported_file.
  split_and!; [|done| |done|done].
  - rewrite Hr at 1. by rewrite !app_String.
  - simpl. by rewrite Hd.
Qed.

(** ** X16.  Whatever the search for the workspace directory captures is
    what stands in the reported file name behind a directory name
    [eirtests-<digits>] and a slash, up to the end of the name; it is not
    empty and has no line terminator. *)
Theorem X16_captured_path_follows_directory_name file relativePath :
  TestRunner.match_tempDir file = Some relativePath →
  ∃ prefix digits,
    file = reported_file prefix digits relativePath
    ∧ Js.truthy digits = true ∧ Js.all_chars Js.is_digit digits = true
    ∧ Js.truthy relativePath = true
    ∧ Js.no_line_terminator relativePath = true.
Proof.
  induction file as [|c file IH]; rewrite match_tempDir_eq.
  - by destruct (TestRunner.match_tempDir_here "") eqn:E.
  - destruct (TestRunner.match_tempDir_here (String c file)) as [rel|] eqn:E.
    + intros [= ->]. apply match_tempDir_here_Some in E as (digits & ? & ?).
      by exists "", digits.
    + intros (prefix & digits & -> & ?)%IH.
      by exists (String c prefix), digits.
Qed.

Lemma spec_results_cardId testCardId spec r :
  r ∈ TestRunner.spec_results testCardId spec →
  TestResultSubmission.test_card_id r = testCardId
  ∧ (TestResultSubmission.status r = TestResultSubmission.passed_
     ↔ TestResultSubmission.passed r = true).
Proof.
  unfold TestRunner.spec_results.
  destruct (PlaywrightJsonSpec.tests spec) as [[|test ?]|];
    [by intros ?%elem_of_nil| |by intros ?%elem_of_nil].
  destruct (PlaywrightJsonTest.results test) as [[|first rest]|];
    [by intros ?%elem_of_nil| |by intros ?%elem_of_nil].
  intros ->%list_elem_of_singleton. cbn.
  by destruct (bool_decide _).
Qed.

(** What the loop over the suites does: it never throws, it appends the
    records of the suites that have a card id, and prints one line for each
    suite that has none. *)
Lemma collect_results_eq results suites st :
  TestRunner.collect_results self results suites st =
    (Ok (results ++
         List.flat_map
           (λ suite,
              match TestRunner.suite_cardId self (testFileToCardIdMap st)
                      (PlaywrightJsonSuite.file suite) with
              | Some testCardId =>
                  List.flat_map (TestRunner.spec_results testCardId)
                    (default [] (PlaywrightJsonSuite.specs suite))
              | None => []
              end)
           suites)%list,
     {| fs := fs st; testFileToCardIdMap := testFileToCardIdMap st;
        exportedTests := exportedTests st;
        console := (List.rev (unmatched_lines self (testFileToCardIdMap st) suites)
                    ++ console st)%list |}).
Proof.
  revert results st. induction suites as [|suite suites IH]; intros results st.
  - cbn. rewrite app_nil_r. by destruct st.
  - cbn [TestRunner.collect_results]. rewrite bind_eq. unfold get_state.
    unfold unmatched_lines. cbn [List.flat_map List.filter].
    destruct (TestRunner.suite_cardId _ _ _) as [testCardId|].
    + rewrite IH. by rewrite <-app_assoc.
    + rewrite bind_eq. cbn [log]. rewrite IH.
      cbn [fs testFileToCardIdMap exportedTests console List.map].
      fold (unmatched_lines self (testFileToCardIdMap st) suites).
      cbn [List.rev]. by rewrite <-app_assoc.
Qed.

(** ** X17.  The loop over the suites never throws and never touches the
    disk or the map; it prints exactly one line for each suite that has no
    card id, in the order of the report, and nothing else. *)
Theorem X17_one_diagnostic_per_unmatched_suite results suites st :
  let out := TestRunner.collect_results self results suites st in
  (∃ records, out.1 = Ok records)
  ∧ same_store st out.2
  ∧ console out.2
    = (List.rev (unmatched_lines self (testFileToCardIdMap st) suites)
       ++ console st)%list.
Proof.
  intros out. subst out. rewrite collect_results_eq. cbn.
  split_and!; [by eexists|done|done].
Qed.

(** ** X18.  Every record the loop adds carries a card id that the map
    holds for the path of one of the reported suites, and that id is not
    empty: no record is made up for a suite without entry.  Its [status]
    says [passed] exactly when its [passed] flag is set. *)
Theorem X18_records_carry_recorded_ids suites st records r :
  (TestRunner.collect_results self [] suites st).1 = Ok records →
  r ∈ records →
  (∃ suite, suite ∈ suites
     ∧ testFileToCardIdMap st
         !! TestRunner.suite_path self (PlaywrightJsonSuite.file suite)
       = Some (TestResultSubmission.test_card_id r))
  ∧ TestResultSubmission.test_card_id r ≠ ""
  ∧ (TestResultSubmission.status r = TestResultSubmission.passed_
     ↔ TestResultSubmission.passed r = true).
Proof.
  rewrite collect_results_eq. cbn [fst app]. intros [= <-].
  rewrite list_elem_of_In, in_flat_map.
  intros (suite & Hsuite & Hr). apply list_elem_of_In in Hsuite.
  unfold TestRunner.suite_cardId in Hr.
  destruct (testFileToCardIdMap st !! _) as [testCardId|] eqn:Hcard;
    [|by apply in_nil in Hr].
  destruct (Js.truthy testCardId) eqn:Hid; [|by apply in_nil in Hr].
  apply in_flat_map in Hr as (spec & _ & Hr). apply list_elem_of_In in Hr.
  apply spec_results_cardId in Hr as [-> Hstatus].
  split_and!; [by exists suite|by apply truthy_true|done].
Qed.

End CorrelateMore.

(** ** Reporting *)

Section Reporting.
Context (w : World) (self : TestRunner.t).

Lemma same_store_trans st1 st2 st3 :
  same_store st1 st2 → same_store st2 st3 → same_store st1 st3.
Proof. intros (? & ? & ?) (? & ? & ?). split_and!; congruence. Qed.

Lemma store_bind {A B} (m : M A) (k : A → M B) :
  (∀ st, same_store st (m st).2) →
  (∀ a st, same_store st (k a st).2) →
  ∀ st, same_store st ((m ≫= k) st).2.
Proof.
  intros Hm Hk st. rewrite bind_eq. specialize (Hm st).
  destruct (m st) as [[a|e] st1]; [|done].
  by apply (same_store_trans _ st1), Hk.
Qed.

Lemma store_try_catch {A} (body : M A) (handler : string → M A) :
  (∀ st, same_store st (body st).2) →
  (∀ e st, same_store st (handler e st).2) →
  ∀ st, same_store st (try_catch body handler st).2.
Proof.
  intros Hb Hh st. unfold try_catch. specialize (Hb st).
  destruct (body st) as [[a|e] st1]; [done|].
  by apply (same_store_trans _ st1), Hh.
Qed.

Lemma store_submit exported startTime finishTime exitCode results st :
  same_store st
    (TestRunner.submit w self exported startTime finishTime exitCode results st).2.
Proof. unfold TestRunner.submit. by destruct (http_post _ _ _ _). Qed.

Lemma store_collect results suites st :
  same_store st (TestRunner.collect_results self results suites st).2.
Proof. by rewrite collect_results_eq. Qed.

(** ** X19.  Reporting reads the disk and the map and changes neither:
    whatever the report file holds and whatever the remote source answers,
    [reportResults] returns without error and leaves the disk, the map and
    the fetched tests as they were. *)
Theorem X19_reporting_changes_nothing startTime finishTime exitCode st :
  let out := TestRunner.reportResults w self startTime finishTime exitCode st in
  out.1 = Ok tt ∧ same_store st out.2.
Proof.
  intros out. subst out. split.
  { by destruct (reportResults_total w self startTime finishTime exitCode st)
      as [st' ->]. }
  revert st. unfold TestRunner.reportResults.
  apply store_bind; [done|]. intros st0 st.
  destruct (exportedTests st0) as [exported|]; [|done].
  revert st. apply store_try_catch; [|done].
  apply store_bind; [done|]. intros _.
  apply store_bind; [done|]. intros st1 st.
  destruct (negb _); [done|].
  destruct (Fs.readFileSync _ _) as [jsonContent|]; [|done].
  destruct (JSON_parse w jsonContent) as [playwrightResults|]; [|done].
  destruct (PlaywrightJsonReport.suites playwrightResults) as [suites|]; [|done].
  revert st. apply store_bind; [apply store_collect|]. intros results st.
  destruct (_ =? 0)%nat; [done|].
  revert st. apply store_bind; [done|]. intros _. apply store_submit.
Qed.

End Reporting.

(** ** The exit code of [run] *)

Section ExitCode.
Context (w : World) (self : TestRunner.t).

(** The handler of [run]: print, clean up, return 1. *)
Lemma run_handler e st :
  (log (Console.Error e) ≫= λ _, TestRunner.cleanup self ≫= λ _, mret 1%Z) st
  = (Ok 1%Z, (TestRunner.cleanup self (log (Console.Error e) st).2).2).
Proof.
  rewrite bind_eq. cbn [log]. rewrite bind_eq. by rewrite !cleanup_eq.
Qed.

Ltac stage :=
  rewrite !bind_eq;
  cbn [log set_exportedTests set_fs
       fs testFileToCardIdMap exportedTests console];
  lazymatch goal with
  | |- context [match TestRunner.validateConfig ?a ?s with _ => _ end] =>
      destruct (TestRunner.validateConfig a s) as [[[]|?] ?];
      [|by rewrite run_handler]
  | |- context [match EirTestsClient.getTests ?a ?b ?c ?s with _ => _ end] =>
      destruct (EirTestsClient.getTests a b c s) as [[?|?] ?];
      [|by rewrite run_handler]
  | |- context [match TestRunner.createTempDirectory ?a ?s with _ => _ end] =>
      destruct (TestRunner.createTempDirectory a s) as [[[]|?] ?];
      [|by rewrite run_handler]
  | |- context [match TestRunner.writeTestFiles ?a ?b ?s with _ => _ end] =>
      destruct (TestRunner.writeTestFiles a b s) as [[?|?] ?];
      [|by rewrite run_handler]
  | |- _ => idtac
  end.

(** ** X20.  The exit code of [run] in full: 1 when a stage before the
    execution throws (configuration, fetch, workspace, a write), 0 when no
    file was written, and otherwise the exit code of the engine, whatever
    reporting and clean-up do. *)
Theorem X20_exit_code_of_run st :
  (TestRunner.run w self st).1 =
    match before_execute w self st with
    | (Throw _, _) => Ok 1%Z
    | (Ok 0, _) => Ok 0%Z
    | (Ok (S _), st1) => Ok (engine_exit_code w self st1)
    end.
Proof.
  unfold before_execute, TestRunner.run, try_catch.
  do 9 stage. unfold mret at 3, M_ret at 3, ret.
  match goal with |- context [(?n =? 0)%nat] => destruct n as [|n] end;
    cbn [Nat.eqb].
  - do 2 stage. by rewrite cleanup_eq.
  - do 4 stage. rewrite executeTests_eq. cbn beta iota zeta. rewrite bind_eq.
    match goal with |- context [TestRunner.reportResults w self ?a ?b ?c ?s] =>
      destruct (reportResults_total w self a b c s) as [st3 ->] end.
    rewrite bind_eq, cleanup_eq. by stage.
Qed.

(** ** X21.  Without API key or without site id [run] returns 1 and asks
    nothing of the world: no request is sent and no process is started, so
    the outcome is the same in every world; the disk is as [cleanup] leaves
    it, which removes a workspace that happens to exist and touches nothing
    else. *)
Theorem X21_missing_configuration w' st :
  Js.truthy (EirTestsConfig.apiKey (TestRunner.config self)) = false
  ∨ Js.truthy (EirTestsConfig.siteId (TestRunner.config self)) = false →
  (TestRunner.run w self st).1 = Ok 1%Z
  ∧ TestRunner.run w self st = TestRunner.run w' self st
  ∧ fs (TestRunner.run w self st).2 = cleaned self (fs st).
Proof.
  intros Hmissing.
  assert (∀ w0, TestRunner.run w0 self st
                = (Ok 1%Z,
                   (TestRunner.cleanup self
                      (log (Console.Error
                              (if Js.truthy (EirTestsConfig.apiKey (TestRunner.config self))
                               then "EIRTESTS_SITE_ID is required"
                               else "EIRTESTS_API_KEY is required"))
                         (log Console.Banner st).2).2).2)) as Hrun.
  { intros w0. unfold TestRunner.run, try_catch.
    rewrite bind_eq. cbn [log]. rewrite bind_eq.
    unfold TestRunner.validateConfig.
    destruct (Js.truthy (EirTestsConfig.apiKey _)); cbn [negb].
    - destruct Hmissing as [? | ->]; [done|]. cbn [negb]. unfold throw.
      cbn beta iota. by rewrite run_handler.
    - unfold throw. cbn beta iota. by rewrite run_handler. }
  rewrite !Hrun. split_and!; [done|done|]. cbn [snd]. by rewrite cleanup_fs.
Qed.

(** ** X22.  With a complete configuration and a fetch that does not
    succeed (network error, rejected request, unreadable answer) [run]
    returns 1 and never creates the workspace: the disk is as [cleanup]
    leaves the disk it found. *)
Theorem X22_failed_fetch st :
  Js.truthy (EirTestsConfig.apiKey (TestRunner.config self)) = true →
  Js.truthy (EirTestsConfig.siteId (TestRunner.config self)) = true →
  (∀ data, http_get w (export_url (TestRunner.config self))
             (EirTestsConfig.apiKey (TestRunner.config self)) ≠ FetchOk data) →
  (TestRunner.run w self st).1 = Ok 1%Z
  ∧ fs (TestRunner.run w self st).2 = cleaned self (fs st)
  ∧ exportedTests (TestRunner.run w self st).2 = exportedTests st.
Proof.
  intros Hkey Hsite Hfetch.
  destruct (TestRunner.run w self st) as [r st'] eqn:Hrun. cbn [fst snd].
  revert Hrun. unfold TestRunner.run, try_catch.
  rewrite bind_eq. cbn [log]. rewrite bind_eq.
  unfold TestRunner.validateConfig.
  rewrite Hkey, Hsite. cbn [negb]. unfold mret at 1, M_ret at 1, ret at 1.
  cbn beta iota. rewrite bind_eq. cbn [log]. rewrite bind_eq.
  unfold EirTestsClient.getTests. fold (export_url (TestRunner.config self)).
  rewrite bind_eq. cbn [log].
  destruct (http_get _ _ _) as [e|status statusText body|e|data];
    [..|by destruct (Hfetch data)];
    unfold throw; cbn beta iota; rewrite run_handler;
    intros [= <- <-]; rewrite cleanup_fs, cleanup_eq;
    (split_and!; [done|done|]); by destruct (Fs.existsSync _ _).
Qed.

End ExitCode.

(** ** A fence and back *)

Section FenceRoundTrip.

(** ** X24.  Wrapping a text in a fence with the tag [typescript] or
    without tag and cleaning the result gives the text back, provided the
    text does not itself begin with a fence line. *)
Theorem X24_fence_round_trip body :
  Js.startsWith body ("```" ++ Js.nl) = false →
  TestRunner.clean_code (Fenced "typescript" body) = body
  ∧ TestRunner.clean_code (Fenced "" body) = body.
Proof.
  intros Hbody. split; [by apply clean_code_typescript|apply clean_code_no_tag].
Qed.

Lemma X24_fence_round_trip_witness :
  TestRunner.clean_code (Fenced "typescript" "test('login', async () => {})")
  = "test('login', async () => {})".
Proof.
  by apply (X24_fence_round_trip "test('login', async () => {})").
Defined.

End FenceRoundTrip.

(** ** The further properties on the concrete run *)

Section MoreExamples.
Import Scenario.

Lemma X4_trailing_slashes_removed_witness :
  EirTestsClient.strip_trailing_slashes "https://api.eirtests.example"
  = "https://api.eirtests.example".
Proof.
  by apply (proj2 (proj2 (X4_trailing_slashes_removed "https://api.eirtests.example"))).
Defined.

Lemma X7_createTempDirectory_outcomes_witness :
  Fs.existsSync (fs (TestRunner.createTempDirectory runner boot).2)
    "/tmp/eirtests-1761535321504" = true.
Proof.
  apply (proj2 (X7_createTempDirectory_outcomes config 1761535321504 boot)).
  by vm_compute.
Defined.

Lemma scenario_targets test :
  test ∈ [login; misplaced; logout] → target runner test ≠ "/tmp".
Proof.
  intros Hin. repeat (apply elem_of_cons in Hin as [->|Hin]; [by vm_compute|]).
  by apply elem_of_nil in Hin.
Qed.

Lemma X8_materialization_keeps_other_paths_witness :
  fs (TestRunner.writeTestFiles runner [login; misplaced; logout] disk).2 !! "/tmp"
  = Some Fs.Dir.
Proof.
  apply (X8_materialization_keeps_other_paths runner
           [login; misplaced; logout] disk "/tmp").
  - intros test Hin _. by apply scenario_targets.
  - by vm_compute.
Defined.

Lemma X9_entries_have_files_witness :
  ∃ content,
    fs (TestRunner.writeTestFiles runner [login; misplaced; logout] disk).2
      !! "/tmp/eirtests-1761535321504/tests/smoke/login.spec.ts"
    = Some (Fs.File content).
Proof.
  apply (X9_entries_have_files runner [login; misplaced; logout] disk)
    with (id := "card-login").
  - intros q id Hq. change ((∅ : gmap string string) !! q = Some id) in Hq.
    by rewrite lookup_empty in Hq.
  - by vm_compute.
Defined.

Lemma X10_entries_come_from_definitions_witness :
  testFileToCardIdMap disk
    !! "/tmp/eirtests-1761535321504/tests/smoke/login.spec.ts" = Some "card-login"
  ∨ ∃ test, test ∈ [login; misplaced; logout]
            ∧ EirTestsClient.has_code test = true
            ∧ target runner test
              = "/tmp/eirtests-1761535321504/tests/smoke/login.spec.ts"
            ∧ ExportedTest.id test = "card-login".
Proof.
  apply (X10_entries_come_from_definitions runner [login; misplaced; logout] disk).
  by vm_compute.
Defined.

Lemma X11_nothing_to_write_witness :
  (TestRunner.writeTestFiles runner [draft] disk).1 = Ok 0.
Proof.
  apply (X11_nothing_to_write runner [draft] disk).
  by intros test ->%list_elem_of_singleton.
Defined.

Lemma X13_executeTests_exit_code_witness :
  ∃ code,
    (TestRunner.executeTests world runner
       (EnvSecretsProvider.getSecretsForPlaywright (process_env world)) disk).1
    = Ok code ∧ code ≠ 0%Z.
Proof.
  apply (proj1 (proj2 (proj2
           (X13_executeTests_exit_code world runner
              (EnvSecretsProvider.getSecretsForPlaywright (process_env world))
              disk)))) with (status := Some 3%Z).
  by vm_compute.
Defined.

Lemma X14_cleanup_removes_only_the_workspace_witness :
  fs (TestRunner.cleanup runner disk).2 !! "/tmp" = fs disk !! "/tmp".
Proof.
  apply (proj1 (proj2 (X14_cleanup_removes_only_the_workspace runner disk "/tmp"))).
  by vm_compute.
Defined.

Lemma X15_cleanup_spares_other_runs_witness :
  fs (TestRunner.cleanup (TestRunner.new config 1761535321505) disk).2
    !! "/tmp/eirtests-1761535321504"
  = fs disk !! "/tmp/eirtests-1761535321504".
Proof.
  apply (X15_cleanup_spares_other_runs config config
           1761535321505 1761535321504); [done|by vm_compute].
Defined.

Lemma X16_captured_path_follows_directory_name_witness :
  ∃ prefix digits,
    "/home/ci/eirtests-17/tests/a.spec.ts"
    = reported_file prefix digits "tests/a.spec.ts"
    ∧ Js.truthy digits = true ∧ Js.all_chars Js.is_digit digits = true
    ∧ Js.truthy "tests/a.spec.ts" = true
    ∧ Js.no_line_terminator "tests/a.spec.ts" = true.
Proof.
  apply (X16_captured_path_follows_directory_name
           "/home/ci/eirtests-17/tests/a.spec.ts" "tests/a.spec.ts").
  by vm_compute.
Defined.

Lemma X18_records_carry_recorded_ids_witness :
  testFileToCardIdMap (TestRunner.writeTestFiles runner [login] disk).2
    !! "/tmp/eirtests-1761535321504/tests/smoke/login.spec.ts"
  = Some "card-login".
Proof.
  pose (r := TestResultSubmission.mk "card-login" false 900 (Some "timeout")
               TestResultSubmission.failed_).
  destruct (X18_records_carry_recorded_ids runner
              [PlaywrightJsonSuite.mk "login"
                 "eirtests-1761535321504/tests/smoke/login.spec.ts"
                 (Some [PlaywrightJsonSpec.mk "login"
                          (Some [PlaywrightJsonTest.mk "login"
                                   (Some [PlaywrightJsonResult.mk
                                            PlaywrightJsonResult.failed 900
                                            (Some "timeout")])])])]
              (TestRunner.writeTestFiles runner [login] disk).2 [r] r)
    as [(suite & ->%list_elem_of_singleton & Hcard) _].
  - by vm_compute.
  - by apply list_elem_of_singleton.
  - exact Hcard.
Defined.

Lemma X21_missing_configuration_witness :
  (TestRunner.run world
     (TestRunner.new (EirTestsConfig.mk "https://api.eirtests.example" "" "site-1")
        1761535321504) boot).1 = Ok 1%Z.
Proof.
  apply (X21_missing_configuration world
           (TestRunner.new (EirTestsConfig.mk "https://api.eirtests.example" "" "site-1")
              1761535321504) world boot).
  by left.
Defined.

Lemma X22_failed_fetch_witness :
  (TestRunner.run
     {| process_env := process_env world; process_cwd := process_cwd world;
        script_dirname := script_dirname world;
        clock_start := clock_start world; clock_finish := clock_finish world;
        http_get := λ _ _, FetchRejected 401 "Unauthorized" "";
        http_post := http_post world; execSync := execSync world;
        JSON_parse := JSON_parse world |} runner boot).1 = Ok 1%Z.
Proof.
  apply (X22_failed_fetch
           {| process_env := process_env world; process_cwd := process_cwd world;
              script_dirname := script_dirname world;
              clock_start := clock_start world; clock_finish := clock_finish world;
              http_get := λ _ _, FetchRejected 401 "Unauthorized" "";
              http_post := http_post world; execSync := execSync world;
              JSON_parse := JSON_parse world |} runner boot); done.
Defined.

End MoreExamples.
